(** * Health monitoring of a deployment: prober, monitor and API retry

    A shallow embedding of [src/services/healthcheck.service.ts]
    ([checkDeploymentHealth], [setupHealthMonitoring] with its inner
    [logHealthCheck] and the returned cancel closure) and of
    [makeVercelApiCall] from [src/services/vercel.service.ts].

    Asynchronous code is written in a small monad that threads the outside
    world (clock, scripted network) and collects the observable effects
    (requests, timer sleeps, console lines) in a trace; exceptions are a
    completion of their own, so that [try]/[catch] is modelled and "never
    throws" is a statement that can fail.  The monitor is a record holding the
    closure variables of [setupHealthMonitoring], driven by the events of the
    event loop. *)

From Stdlib Require Import ZArith List String Ascii Bool Lia.
From Stdlib Require Import DecimalString.
Import ListNotations.

Local Open Scope string_scope.
Local Open Scope Z_scope.

(* ===================================================================== *)
(** ** JavaScript values that the code inspects *)
(* ===================================================================== *)

Module Js.

(** A JS [number] restricted to what the code meets: an integer, or the
    [NaN] that [parseInt] yields on a malformed command-line option. *)
Inductive number : Type :=
| Num (z : Z)
| NaN.

(** [a === b] on numbers: [NaN] equals nothing, itself included. *)
Definition strict_eq (a b : number) : bool :=
  match a, b with
  | Num x, Num y => x =? y
  | _, _ => false
  end.

Definition number_truthy (a : number) : bool :=
  match a with
  | Num z => negb (z =? 0)
  | NaN => false
  end.

(** [a || d] where [a] is an optional number property. *)
Definition or_default (a : option number) (d : number) : number :=
  match a with
  | Some n => if number_truthy n then n else d
  | None => d
  end.

(** A string is truthy when it is not empty. *)
Definition string_truthy (s : string) : bool :=
  match s with
  | EmptyString => false
  | String _ _ => true
  end.

(** [`${n}`] for an integer. *)
Definition string_of_Z (z : Z) : string :=
  NilZero.string_of_int (Z.to_int z).

Definition string_of_number (n : number) : string :=
  match n with
  | Num z => string_of_Z z
  | NaN => "NaN"
  end.

(** The [response] object hanging off an axios error, with the properties
    the code reads: [status], [statusText] and [data.error.message]. *)
Record Response : Type := mkResponse {
  res_status : option Z;
  res_statusText : option string;
  res_data_error_message : option string
}.

(** An object, seen through the properties the code reads.
    [message = None] means the object has no own [message] property; an
    [Error] instance still inherits [Error.prototype.message], the empty
    string.  [response = None] means there is no [response] property,
    [Some None] that the property is there and holds [undefined] or [null].
    A [message] is kept as what [String(error.message)] gives. *)
Record Obj : Type := mkObj {
  instanceofError : bool;
  message : option string;
  response : option (option Response);
  code : option string
}.

(** What a [catch] clause can receive. *)
Inductive Value : Type :=
| VUndefined
| VNull
| VBool (b : bool)
| VNumber (n : number)
| VString (s : string)
| VObject (o : Obj).

Inductive TypeTag : Type :=
| TyUndefined | TyObject | TyBoolean | TyNumber | TyString.

Definition typeof (v : Value) : TypeTag :=
  match v with
  | VUndefined => TyUndefined
  | VNull => TyObject
  | VBool _ => TyBoolean
  | VNumber _ => TyNumber
  | VString _ => TyString
  | VObject _ => TyObject
  end.

Definition typeof_is_object (v : Value) : bool :=
  match typeof v with
  | TyObject => true
  | _ => false
  end.

Definition truthy (v : Value) : bool :=
  match v with
  | VUndefined => false
  | VNull => false
  | VBool b => b
  | VNumber n => number_truthy n
  | VString s => string_truthy s
  | VObject _ => true
  end.

(** ['message' in o] *)
Definition has_message (o : Obj) : bool :=
  instanceofError o ||
  match message o with Some _ => true | None => false end.

(** ['response' in o] *)
Definition has_response (o : Obj) : bool :=
  match response o with Some _ => true | None => false end.

(** [String(o.message)] *)
Definition message_of (o : Obj) : string :=
  match message o with
  | Some s => s
  | None => if instanceofError o then "" else "undefined"
  end.

(** [error && typeof error === 'object' && 'message' in error] *)
Definition is_object_with_message (v : Value) : bool :=
  truthy v && typeof_is_object v &&
  match v with VObject o => has_message o | _ => false end.

(** [error && typeof error === 'object' && 'response' in error] *)
Definition is_object_with_response (v : Value) : bool :=
  truthy v && typeof_is_object v &&
  match v with VObject o => has_response o | _ => false end.

(** [error instanceof Error] *)
Definition instanceof_Error (v : Value) : bool :=
  match v with VObject o => instanceofError o | _ => false end.

(** [new Error(msg)] *)
Definition new_Error (msg : string) : Value :=
  VObject {| instanceofError := true; message := Some msg;
             response := None; code := None |}.

(** The chain used by both services to turn a caught value into text:
    [error instanceof Error ? error.message
     : typeof error === 'string' ? error
     : error && typeof error === 'object' && 'message' in error
         ? String(error.message) : 'Unknown error'] *)
Definition error_text (v : Value) : string :=
  if instanceof_Error v then
    match v with VObject o => message_of o | _ => "" end
  else
    match v with
    | VString s => s
    | _ =>
        if is_object_with_message v then
          match v with VObject o => message_of o | _ => "" end
        else "Unknown error"
    end.

End Js.

(* ===================================================================== *)
(** ** The outside world and the effect monad *)
(* ===================================================================== *)

(** What the server sent back. *)
Record HttpResponse : Type := mkHttpResponse {
  status : Z;
  statusText : string;
  data : string;
  data_error_message : option string
}.

(** The fate of one HTTP request: a response after [latency] ms, or a value
    thrown by the transport after [latency] ms (connection refused, reset,
    DNS failure, timeout). *)
Inductive NetReply : Type :=
| Reply (latency : Z) (r : HttpResponse)
| Failure (latency : Z) (e : Js.Value).

(** [clock] is [Date.now()]; [net k] is the fate of the [k]-th request of
    the process and [requests] counts those already issued; [VERCEL_TOKEN] is
    the environment variable of that name. *)
Record World : Type := mkWorld {
  clock : Z;
  net : nat -> NetReply;
  requests : nat;
  VERCEL_TOKEN : option string
}.

Inductive Event : Type :=
| EvRequest (method url : string) (timeout : option Js.number)
| EvSleep (ms : Z)
| EvConsoleLog (line : string).

Inductive Completion (A : Type) : Type :=
| Returned (a : A)
| Threw (e : Js.Value)
| Diverged.

Arguments Returned {A} a.
Arguments Threw {A} e.
Arguments Diverged {A}.

Definition M (A : Type) : Type := World -> Completion A * World * list Event.

Definition ret {A : Type} (a : A) : M A :=
  fun w => (Returned a, w, []).

Definition throw {A : Type} (e : Js.Value) : M A :=
  fun w => (Threw e, w, []).

Definition diverge {A : Type} : M A :=
  fun w => (Diverged, w, []).

Definition bind {A B : Type} (m : M A) (k : A -> M B) : M B :=
  fun w =>
    match m w with
    | (Returned a, w1, t1) =>
        match k a w1 with
        | (c, w2, t2) => (c, w2, (t1 ++ t2)%list)
        end
    | (Threw e, w1, t1) => (Threw e, w1, t1)
    | (Diverged, w1, t1) => (Diverged, w1, t1)
    end.

(** [try { body } catch (error) { handler error }] *)
Definition try_catch {A : Type} (body : M A) (handler : Js.Value -> M A) : M A :=
  fun w =>
    match body w with
    | (Threw e, w1, t1) =>
        match handler e w1 with
        | (c, w2, t2) => (c, w2, (t1 ++ t2)%list)
        end
    | other => other
    end.

Declare Scope js_scope.
Delimit Scope js_scope with js.
Notation "x <- m ;; k" := (bind m (fun x => k))
  (at level 61, m at next level, right associativity) : js_scope.
Notation "m ;;; k" := (bind m (fun _ => k))
  (at level 61, right associativity) : js_scope.
Local Open Scope js_scope.

(** [ms] milliseconds pass. *)
Definition elapse (ms : Z) (w : World) : World :=
  {| clock := clock w + ms; net := net w;
     requests := requests w; VERCEL_TOKEN := VERCEL_TOKEN w |}.

(** One more request has been issued. *)
Definition issued (w : World) : World :=
  {| clock := clock w; net := net w;
     requests := S (requests w); VERCEL_TOKEN := VERCEL_TOKEN w |}.

(** The fate of the request issued last. *)
Definition final_fate (w : World) : NetReply :=
  net w (Nat.pred (requests w)).

(** [Date.now()] *)
Definition Date_now : M Z :=
  fun w => (Returned (clock w), w, []).

Definition emit (e : Event) : M unit :=
  fun w => (Returned tt, w, [e]).

Definition console_log (line : string) : M unit :=
  emit (EvConsoleLog line).

(** [await new Promise(resolve => setTimeout(resolve, ms))] *)
Definition sleep (ms : Z) : M unit :=
  fun w => (Returned tt, elapse ms w, [EvSleep ms]).

Definition getenv_VERCEL_TOKEN : M (option string) :=
  fun w => (Returned (VERCEL_TOKEN w), w, []).

Record AxiosConfig : Type := mkAxiosConfig {
  ax_method : string;
  ax_url : string;
  ax_timeout : option Js.number;
  ax_validateStatus : Z -> bool
}.

(** axios' own [validateStatus]: [status >= 200 && status < 300]. *)
Definition default_validateStatus (s : Z) : bool :=
  (200 <=? s) && (s <? 300).

(** The error axios rejects with when [validateStatus] turns a response
    down: an [Error] instance carrying the response. *)
Definition axios_status_error (r : HttpResponse) : Js.Value :=
  Js.VObject
    {| Js.instanceofError := true;
       Js.message :=
         Some ("Request failed with status code " ++ Js.string_of_Z (status r));
       Js.response :=
         Some (Some {| Js.res_status := Some (status r);
                       Js.res_statusText := Some (statusText r);
                       Js.res_data_error_message := data_error_message r |});
       Js.code := Some (if (400 <=? status r) && (status r <? 500)
                        then "ERR_BAD_REQUEST" else "ERR_BAD_RESPONSE") |}.

(** [await axios(cfg)]: the next scripted fate of the network is consumed;
    a response is returned when [validateStatus] accepts its status and is
    turned into a rejection otherwise; a transport failure is thrown. *)
Definition axios (cfg : AxiosConfig) : M HttpResponse :=
  fun w =>
    let after (latency : Z) := issued (elapse latency w) in
    let ev := EvRequest (ax_method cfg) (ax_url cfg) (ax_timeout cfg) in
    match net w (requests w) with
    | Reply latency r =>
        if ax_validateStatus cfg (status r)
        then (Returned r, after latency, [ev])
        else (Threw (axios_status_error r), after latency, [ev])
    | Failure latency e => (Threw e, after latency, [ev])
    end.

(* ===================================================================== *)
(** ** The prober: [checkDeploymentHealth] *)
(* ===================================================================== *)

Record DeploymentHealth : Type := mkDeploymentHealth {
  expectedStatus : Js.number;
  timeoutMs : option Js.number;
  checkIntervalMs : option Js.number
}.

(** [timestamp] is the instant read by [new Date()]; the source stores its
    ISO-8601 rendering, a function of that instant alone. *)
Record HealthCheckResult : Type := mkHealthCheckResult {
  timestamp : Z;
  url : string;
  hc_status : Z;
  healthy : bool;
  responseTime : option string;
  error : option string
}.

Module Health.

Definition MAX_RETRIES : Z := 3.
Definition RETRY_DELAY_MS : Z := 1000.

Definition retry_notice (retryCount : Z) (msg : string) : string :=
  "Health check attempt failed (" ++ Js.string_of_Z (retryCount + 1) ++ "/"
    ++ Js.string_of_Z MAX_RETRIES ++ "), retrying... (Error: " ++ msg ++ ")".

(** The body of [checkDeploymentHealth].  The recursion of the source is on
    [retryCount] going up to [MAX_RETRIES]; [fuel] bounds its depth. *)
Fixpoint checkDeploymentHealth_fuel (fuel : nat) (url : string)
    (config : DeploymentHealth) (retryCount : Z) : M HealthCheckResult :=
  match fuel with
  | O => diverge
  | S fuel' =>
      timestamp <- Date_now ;;
      try_catch
        (startTime <- Date_now ;;
         response <- axios {| ax_method := "GET";
                              ax_url := url;
                              ax_timeout :=
                                Some (Js.or_default (timeoutMs config) (Js.Num 5000));
                              ax_validateStatus := fun _ => true |} ;;
         endTime <- Date_now ;;
         let responseTime := endTime - startTime in
         ret {| timestamp := timestamp;
                url := url;
                hc_status := status response;
                healthy := Js.strict_eq (Js.Num (status response))
                                        (expectedStatus config);
                responseTime := Some (Js.string_of_Z responseTime ++ "ms");
                error := None |})
        (fun error =>
           if Js.is_object_with_message error && (retryCount <? MAX_RETRIES)
           then
             console_log
               (retry_notice retryCount
                  (match error with
                   | Js.VObject o => Js.message_of o
                   | _ => ""
                   end)) ;;;
             sleep RETRY_DELAY_MS ;;;
             checkDeploymentHealth_fuel fuel' url config (retryCount + 1)
           else
             ret {| timestamp := timestamp;
                    url := url;
                    hc_status := 503;
                    healthy := false;
                    responseTime := None;
                    error := Some (Js.error_text error) |})
  end.

(** Depth that the recursion cannot exceed from [retryCount]. *)
Definition depth (retryCount : Z) : nat :=
  S (Z.to_nat (MAX_RETRIES - retryCount)).

Definition checkDeploymentHealth (url : string) (config : DeploymentHealth)
    (retryCount : Z) : M HealthCheckResult :=
  checkDeploymentHealth_fuel (depth retryCount) url config retryCount.

End Health.

(* ===================================================================== *)
(** ** The outer API call: [makeVercelApiCall] *)
(* ===================================================================== *)

Module Vercel.

Definition MAX_RETRIES : Z := 3.
Definition RETRY_DELAY_MS : Z := 2000.

Inductive Method : Type := get | post | patch.

Definition method_name (m : Method) : string :=
  match m with
  | get => "get"
  | post => "post"
  | patch => "patch"
  end.

(** [(error as any).response?.status >= 500] *)
Definition response_status_ge_500 (error : Js.Value) : bool :=
  match error with
  | Js.VObject o =>
      match Js.response o with
      | Some (Some r) =>
          match Js.res_status r with
          | Some s => 500 <=? s
          | None => false
          end
      | _ => false
      end
  | _ => false
  end.

(** [(error as any).code === 'ECONNRESET'] *)
Definition code_is_ECONNRESET (error : Js.Value) : bool :=
  match error with
  | Js.VObject o =>
      match Js.code o with
      | Some c => String.eqb c "ECONNRESET"
      | None => false
      end
  | _ => false
  end.

(** The condition of the [if] that opens the [catch] block. *)
Definition retries (error : Js.Value) (retryCount : Z) : bool :=
  Js.is_object_with_response error &&
  (retryCount <? MAX_RETRIES) &&
  (response_status_ge_500 error || code_is_ECONNRESET error).

Definition retry_notice (retryCount : Z) : string :=
  "API call failed, retrying (" ++ Js.string_of_Z (retryCount + 1) ++ "/"
    ++ Js.string_of_Z MAX_RETRIES ++ ")...".

(** [response?.data?.error?.message || response?.statusText], kept only
    when truthy. *)
Definition apiError (r : option Js.Response) : option string :=
  match r with
  | Some r =>
      let second :=
        match Js.res_statusText r with
        | Some t => if Js.string_truthy t then Some t else None
        | None => None
        end in
      match Js.res_data_error_message r with
      | Some m => if Js.string_truthy m then Some m else second
      | None => second
      end
  | None => None
  end.

(** [response.status || 'network error'] inside the template. *)
Definition status_or_network_error (r : option Js.Response) : string :=
  match r with
  | Some r =>
      match Js.res_status r with
      | Some s => if s =? 0 then "network error" else Js.string_of_Z s
      | None => "network error"
      end
  | None => "network error"
  end.

(** The message of the [Error] thrown at the end of the [catch] block. *)
Definition final_message (error : Js.Value) : string :=
  let errorMessage := Js.error_text error in
  if Js.is_object_with_response error then
    match error with
    | Js.VObject o =>
        let response := match Js.response o with
                        | Some r => r
                        | None => None
                        end in
        match apiError response with
        | Some a =>
            "Vercel API error (" ++ status_or_network_error response ++ "): " ++ a
        | None => errorMessage
        end
    | _ => errorMessage
    end
  else errorMessage.

Definition token_missing : string :=
  "VERCEL_TOKEN environment variable is not set. Please set it before deploying.".

Fixpoint makeVercelApiCall_fuel (fuel : nat) (url : string) (method : Method)
    (retryCount : Z) : M string :=
  match fuel with
  | O => diverge
  | S fuel' =>
      token <- getenv_VERCEL_TOKEN ;;
      if negb (match token with
               | Some t => Js.string_truthy t
               | None => false
               end)
      then throw (Js.new_Error token_missing)
      else
        try_catch
          (response <- axios {| ax_method := method_name method;
                                ax_url := url;
                                ax_timeout := None;
                                ax_validateStatus := default_validateStatus |} ;;
           ret (data response))
          (fun error =>
             if retries error retryCount
             then
               console_log (retry_notice retryCount) ;;;
               sleep RETRY_DELAY_MS ;;;
               makeVercelApiCall_fuel fuel' url method (retryCount + 1)
             else throw (Js.new_Error (final_message error)))
  end.

Definition depth (retryCount : Z) : nat :=
  S (Z.to_nat (MAX_RETRIES - retryCount)).

Definition makeVercelApiCall (url : string) (method : Method)
    (retryCount : Z) : M string :=
  makeVercelApiCall_fuel (depth retryCount) url method retryCount.

End Vercel.

(* ===================================================================== *)
(** ** The monitor: [setupHealthMonitoring] *)
(* ===================================================================== *)

Module Monitor.

(** The texts that the monitor prints, by kind:
    - [Started]: "Health monitoring started for <url>";
    - [Interval]: "Health check interval: <ms>ms";
    - [LogsStoredIn]: "Health logs will be stored in: <logFile>", the file
      being named after the instant at which the session started;
    - [Passed]: "Health check passed for <url> (Status: <status>)";
    - [Stable]: "Health check stable: <n> consecutive successful checks";
    - [Failed]: "Health check failed for <url> (Status: <status>)", followed by
      ": <error>" when there is a truthy error;
    - [Alert]: "ALERT: <n> consecutive health check failures!";
    - [Stopped]: "Health monitoring stopped for <url>". *)
Inductive Notice : Type :=
| Started (url : string)
| Interval (ms : Js.number)
| LogsStoredIn (sessionStart : Z)
| Passed (url : string) (status : Z)
| Stable (streak : Z)
| Failed (url : string) (status : Z) (error : option string)
| Alert (streak : Z)
| Stopped (url : string).

Inductive ConsoleCall : Type :=
| console_log (n : Notice)
| console_error (n : Notice).

(** One line of the log file, as the pieces that the template of
    [logMessage] puts in a row:
    [[timestamp] [level] url - Status: status mark responseTime error]. *)
Record LogLine : Type := mkLogLine {
  ll_timestamp : Z;
  ll_level : string;
  ll_url : string;
  ll_status : Z;
  ll_mark : string;
  ll_responseTime : string;
  ll_error : string
}.

(** The closure of one [setupHealthMonitoring] call, with what it has
    written so far.  [interval_armed] is the timer handle [interval] still
    being live; [in_flight] counts the [checkDeploymentHealth] promises
    that the session started and whose continuation has not run yet. *)
Record State : Type := mkState {
  st_url : string;
  config : DeploymentHealth;
  healthyStreak : Z;
  unhealthyStreak : Z;
  sessionStart : Z;
  interval_armed : bool;
  in_flight : nat;
  logFile : list LogLine;
  console : list ConsoleCall
}.

Definition setupHealthMonitoring (url : string) (config : DeploymentHealth)
    (now : Z) : State :=
  {| st_url := url;
     config := config;
     healthyStreak := 0;
     unhealthyStreak := 0;
     sessionStart := now;
     interval_armed := true;
     in_flight := 1;
     logFile := [];
     console :=
       [ console_log (Started url);
         console_log (Interval (Js.or_default (checkIntervalMs config)
                                              (Js.Num 30000)));
         console_log (LogsStoredIn now) ] |}.

(** The "Update streaks" part of [logHealthCheck]. *)
Definition update_streaks (health : HealthCheckResult) (hs us : Z) : Z * Z :=
  if healthy health then (hs + 1, 0) else (0, us + 1).

Definition logMessage (health : HealthCheckResult) : LogLine :=
  {| ll_timestamp := timestamp health;
     ll_level := if healthy health then "INFO" else "ERROR";
     ll_url := url health;
     ll_status := hc_status health;
     ll_mark := if healthy health then "✅" else "❌";
     ll_responseTime := match responseTime health with
                        | Some t => t
                        | None => ""
                        end;
     ll_error := match error health with
                 | Some e => if Js.string_truthy e then "- Error: " ++ e else ""
                 | None => ""
                 end |}.

(** The "Log to console" part of [logHealthCheck], on the updated
    streaks.  [%] is the truncating remainder. *)
Definition log_to_console (health : HealthCheckResult) (healthyStreak unhealthyStreak : Z)
    : list ConsoleCall :=
  if healthy health then
    if healthyStreak =? 1 then
      [console_log (Passed (url health) (hc_status health))]
    else if Z.rem healthyStreak 5 =? 0 then
      [console_log (Stable healthyStreak)]
    else []
  else
    console_error (Failed (url health) (hc_status health)
                     (match error health with
                      | Some e => if Js.string_truthy e then Some e else None
                      | None => None
                      end))
    :: (if 3 <=? unhealthyStreak
        then [console_error (Alert unhealthyStreak)]
        else []).

Definition logHealthCheck (health : HealthCheckResult) (s : State) : State :=
  let streaks := update_streaks health (healthyStreak s) (unhealthyStreak s) in
  let hs := fst streaks in
  let us := snd streaks in
  {| st_url := st_url s;
     config := config s;
     healthyStreak := hs;
     unhealthyStreak := us;
     sessionStart := sessionStart s;
     interval_armed := interval_armed s;
     in_flight := in_flight s;
     logFile := (logFile s ++ [logMessage health])%list;
     console := (console s ++ log_to_console health hs us)%list |}.

(** The closure returned by [setupHealthMonitoring]:
    [clearInterval(interval)] and one console line. *)
Definition cancel (s : State) : State :=
  {| st_url := st_url s;
     config := config s;
     healthyStreak := healthyStreak s;
     unhealthyStreak := unhealthyStreak s;
     sessionStart := sessionStart s;
     interval_armed := false;
     in_flight := in_flight s;
     logFile := logFile s;
     console := (console s ++ [console_log (Stopped (st_url s))])%list |}.

Definition with_in_flight (n : nat) (s : State) : State :=
  {| st_url := st_url s;
     config := config s;
     healthyStreak := healthyStreak s;
     unhealthyStreak := unhealthyStreak s;
     sessionStart := sessionStart s;
     interval_armed := interval_armed s;
     in_flight := n;
     logFile := logFile s;
     console := console s |}.

(** What the event loop can do to a session: the interval timer fires
    and its callback starts a probe; a probe that was started settles, in
    the world [w] that it ran against, and its continuation runs; the
    caller invokes the cancel closure. *)
Inductive LoopEvent : Type :=
| TimerFires
| ProbeSettles (w : World)
| CancelCalled.

(** [None] when the event is not enabled in [s]: a cleared interval does
    not fire, and nothing settles when no probe is pending. *)
Definition dispatch (ev : LoopEvent) (s : State) : option State :=
  match ev with
  | TimerFires =>
      if interval_armed s
      then Some (with_in_flight (S (in_flight s)) s)
      else None
  | ProbeSettles w =>
      match in_flight s with
      | O => None
      | S n =>
          match Health.checkDeploymentHealth (st_url s) (config s) 0 w with
          | (Returned health, _, _) =>
              Some (logHealthCheck health (with_in_flight n s))
          | (_, _, _) => Some (with_in_flight n s)
          end
      end
  | CancelCalled => Some (cancel s)
  end.

Fixpoint run (evs : list LoopEvent) (s : State) : option State :=
  match evs with
  | [] => Some s
  | ev :: evs' =>
      match dispatch ev s with
      | Some s' => run evs' s'
      | None => None
      end
  end.

(** The states that a session can be in: the one [setupHealthMonitoring]
    builds, and those that follow by an event of the loop or by
    [logHealthCheck] on any probe result whatever. *)
Inductive Reachable : State -> Prop :=
| reach_start url config now :
    Reachable (setupHealthMonitoring url config now)
| reach_result health s :
    Reachable s -> Reachable (logHealthCheck health s)
| reach_event ev s s' :
    Reachable s -> dispatch ev s = Some s' -> Reachable s'.

(** Processing a sequence of probe results in order. *)
Definition process (results : list HealthCheckResult) (s : State) : State :=
  fold_left (fun acc health => logHealthCheck health acc) results s.

Definition is_success_notice (c : ConsoleCall) : bool :=
  match c with
  | console_log (Passed _ _) => true
  | console_log (Stable _) => true
  | _ => false
  end.

Definition is_failure_notice (c : ConsoleCall) : bool :=
  match c with
  | console_error (Failed _ _ _) => true
  | _ => false
  end.

Definition is_alert (c : ConsoleCall) : bool :=
  match c with
  | console_error (Alert _) => true
  | _ => false
  end.

Definition on_stderr (c : ConsoleCall) : bool :=
  match c with
  | console_error _ => true
  | console_log _ => false
  end.

Definition count (p : ConsoleCall -> bool) (l : list ConsoleCall) : nat :=
  List.length (filter p l).

End Monitor.

(* ===================================================================== *)
(** ** Reading a trace *)
(* ===================================================================== *)

(** The requests and timer waits of a trace, in order, console lines left
    out. *)
Inductive Beat : Type :=
| Attempt
| Delay (ms : Z).

Fixpoint timeline (tr : list Event) : list Beat :=
  match tr with
  | [] => []
  | EvRequest _ _ _ :: tr' => Attempt :: timeline tr'
  | EvSleep ms :: tr' => Delay ms :: timeline tr'
  | EvConsoleLog _ :: tr' => timeline tr'
  end.

Fixpoint attempts (tr : list Event) : nat :=
  match tr with
  | [] => O
  | EvRequest _ _ _ :: tr' => S (attempts tr')
  | _ :: tr' => attempts tr'
  end.

(** The request event of the prober. *)
Definition probe_request (url : string) (config : DeploymentHealth) : Event :=
  EvRequest "GET" url (Some (Js.or_default (timeoutMs config) (Js.Num 5000))).

(** The result that the [catch] block of the prober builds. *)
Definition synthetic (timestamp : Z) (url : string) (e : Js.Value)
    : HealthCheckResult :=
  {| timestamp := timestamp;
     url := url;
     hc_status := 503;
     healthy := false;
     responseTime := None;
     error := Some (Js.error_text e) |}.

(** The [responseTime] property of a result as a JS value. *)
Definition responseTime_value (r : HealthCheckResult) : Js.Value :=
  match responseTime r with
  | Some s => Js.VString s
  | None => Js.VUndefined
  end.

(** An optional integer: [undefined] or an integral number. *)
Definition is_optional_int (v : Js.Value) : bool :=
  match v with
  | Js.VUndefined => true
  | Js.VNumber (Js.Num _) => true
  | _ => false
  end.

(* ===================================================================== *)
(** ** Sample inputs *)
(* ===================================================================== *)

Module Samples.

Definition cfg : DeploymentHealth :=
  {| expectedStatus := Js.Num 200;
     timeoutMs := Some (Js.Num 5000);
     checkIntervalMs := Some (Js.Num 30000) |}.

Definition target : string := "https://app.example.com/health".

(** The error of a refused connection. *)
Definition refused : Js.Value :=
  Js.VObject {| Js.instanceofError := true;
                Js.message := Some "connect ECONNREFUSED 10.0.0.1:443";
                Js.response := None;
                Js.code := Some "ECONNREFUSED" |}.

(** The error of a reset connection, as a transport error that carries no
    [response] property. *)
Definition reset : Js.Value :=
  Js.VObject {| Js.instanceofError := true;
                Js.message := Some "read ECONNRESET";
                Js.response := None;
                Js.code := Some "ECONNRESET" |}.

Definition ok200 : HttpResponse :=
  {| status := 200; statusText := "OK"; data := "{}";
     data_error_message := None |}.

Definition err500 : HttpResponse :=
  {| status := 500; statusText := "Internal Server Error"; data := "{}";
     data_error_message := None |}.

Definition world_of (fate : nat -> NetReply) : World :=
  {| clock := 1700000000000; net := fate; requests := 0;
     VERCEL_TOKEN := Some "token" |}.

Definition down : World := world_of (fun _ => Failure 7 refused).
Definition up : World := world_of (fun _ => Reply 42 ok200).
Definition broken : World := world_of (fun _ => Reply 15 err500).
Definition resetting : World := world_of (fun _ => Failure 3 reset).
Definition throws_text : World :=
  world_of (fun _ => Failure 1 (Js.VString "boom")).

Definition good : HealthCheckResult :=
  {| timestamp := 1700000000000; url := target; hc_status := 200;
     healthy := true; responseTime := Some "42ms"; error := None |}.

Definition bad : HealthCheckResult :=
  {| timestamp := 1700000003021; url := target; hc_status := 503;
     healthy := false; responseTime := None;
     error := Some "connect ECONNREFUSED 10.0.0.1:443" |}.

Definition session : Monitor.State :=
  Monitor.setupHealthMonitoring target cfg 1700000000000.

End Samples.

(* ===================================================================== *)
(** ** The configuration of an environment *)
(* ===================================================================== *)

(** The [healthCheck] section as the configuration file gives it: here
    [expectedStatus] may be left out. *)
Record HealthSection : Type := mkHealthSection {
  hs_expectedStatus : option Js.number;
  hs_timeoutMs : option Js.number;
  hs_checkIntervalMs : option Js.number
}.

(** An [EnvironmentConfig] read from [autodeploy.config.json], without its
    [analytics] section; a property that the file leaves out is [None].
    [environmentVariables] keeps the entries in the order of
    [Object.entries]. *)
Record EnvironmentConfig : Type := mkEnvironmentConfig {
  environmentVariables : option (list (string * string));
  vercelProject : option string;
  apiBaseUrl : option string;
  healthCheck : option HealthSection
}.

(* ===================================================================== *)
(** ** The callers of [makeVercelApiCall] *)
(* ===================================================================== *)

Module Api.

(** Reading a property of the parsed body of a response: the property holds
    a string, or is not there, or the body is [null] and the access throws a
    [TypeError] with the given message. *)
Inductive Lookup : Type :=
| Found (s : string)
| Missing
| Fault (message : string).

(** [read body name] is what [data.name] gives for the body [data]. *)
Definition Reader : Type := string -> string -> Lookup.

(** The chain that the callers use to build their message:
    [let errorMessage = base;
     if (error instanceof Error) errorMessage += `: ${error.message}`;
     else if (typeof error === 'string') errorMessage += `: ${error}`;
     else if (error && typeof error === 'object' && 'message' in error)
       errorMessage += `: ${String(error.message)}`;] *)
Definition prefixed (base : string) (error : Js.Value) : string :=
  if Js.instanceof_Error error then
    base ++ ": " ++ match error with Js.VObject o => Js.message_of o | _ => "" end
  else
    match error with
    | Js.VString s => base ++ ": " ++ s
    | _ =>
        if Js.is_object_with_message error then
          base ++ ": " ++ match error with Js.VObject o => Js.message_of o | _ => "" end
        else base
    end.

(** [`${config.vercelProject}`] *)
Definition project_text (config : EnvironmentConfig) : string :=
  match vercelProject config with
  | Some p => p
  | None => "undefined"
  end.

(** [!config.environmentVariables ||
     Object.keys(config.environmentVariables).length === 0] *)
Definition nothing_to_set (config : EnvironmentConfig) : bool :=
  match environmentVariables config with
  | None => true
  | Some vars => Nat.eqb (List.length vars) 0
  end.

Definition variable_count (config : EnvironmentConfig) : Z :=
  match environmentVariables config with
  | None => 0
  | Some vars => Z.of_nat (List.length vars)
  end.

Definition env_url (config : EnvironmentConfig) : string :=
  "https://api.vercel.com/v1/projects/" ++ project_text config ++ "/env".

(** The request body that the callers hand to [makeVercelApiCall] (the
    variables to set, the project to deploy) is not observed by the scripted
    network and is left out, as it is in [makeVercelApiCall]. *)
Definition setVercelEnvironment (config : EnvironmentConfig) : M unit :=
  if nothing_to_set config then
    console_log "No environment variables to set, skipping" ;;;
    ret tt
  else
    console_log ("Setting " ++ Js.string_of_Z (variable_count config)
                   ++ " environment variables for " ++ project_text config) ;;;
    try_catch
      (Vercel.makeVercelApiCall (env_url config) Vercel.patch 0 ;;;
       console_log "Environment variables set successfully")
      (fun error =>
         throw (Js.new_Error (prefixed "Failed to set environment variables" error))).

Definition deployments_url : string := "https://api.vercel.com/v13/deployments".

Definition no_url : string := "Deployment started but no URL was returned".

Definition deployToVercel (read : Reader) (projectId : string) : M string :=
  try_catch
    (console_log ("Triggering deployment for project " ++ projectId ++ "...") ;;;
     data <- Vercel.makeVercelApiCall deployments_url Vercel.post 0 ;;
     match read data "url" with
     | Fault message => throw (Js.new_Error message)
     | Missing => throw (Js.new_Error no_url)
     | Found u =>
         if negb (Js.string_truthy u) then throw (Js.new_Error no_url)
         else
           console_log ("Deployment triggered, URL: " ++ u) ;;;
           ret u
     end)
    (fun error =>
       throw (Js.new_Error (prefixed "Failed to deploy to Vercel" error))).

Definition getDeploymentStatus (read : Reader) (deploymentId : string) : M string :=
  try_catch
    (data <- Vercel.makeVercelApiCall (deployments_url ++ "/" ++ deploymentId)
               Vercel.get 0 ;;
     match read data "state" with
     | Fault message => throw (Js.new_Error message)
     | Missing => ret "unknown"
     | Found st => ret (if Js.string_truthy st then st else "unknown")
     end)
    (fun error =>
       throw (Js.new_Error (prefixed "Failed to get deployment status" error))).

End Api.

(* ===================================================================== *)
(** ** Validation of an environment: [validateEnvironment] *)
(* ===================================================================== *)

Module Validation.

Definition nl : string := String (Ascii.ascii_of_nat 10) EmptyString.

(** [parts.join(sep)] *)
Fixpoint join (sep : string) (parts : list string) : string :=
  match parts with
  | [] => ""
  | [p] => p
  | p :: rest => p ++ sep ++ join sep rest
  end.

Definition option_truthy (s : option string) : bool :=
  match s with
  | Some t => Js.string_truthy t
  | None => false
  end.

(** [n && n < bound] for an optional number. *)
Definition set_and_below (n : option Js.number) (bound : Z) : bool :=
  match n with
  | Some (Js.Num z) => negb (z =? 0) && (z <? bound)
  | Some Js.NaN => false
  | None => false
  end.

(** [Object.entries(vars).filter(([_, value]) => !value).map(([key]) => key)] *)
Definition missingVars (vars : list (string * string)) : list string :=
  map fst (filter (fun kv => negb (Js.string_truthy (snd kv))) vars).

Definition project_errors (config : EnvironmentConfig) : list string :=
  if negb (option_truthy (vercelProject config))
  then ["vercelProject is required"] else [].

Definition url_errors (isValidUrl : string -> bool) (config : EnvironmentConfig)
    : list string :=
  match apiBaseUrl config with
  | Some u =>
      if negb (Js.string_truthy u) then ["apiBaseUrl is required"]
      else if negb (isValidUrl u)
           then ["apiBaseUrl '" ++ u ++ "' is not a valid URL"]
           else []
  | None => ["apiBaseUrl is required"]
  end.

Definition health_errors (config : EnvironmentConfig) : list string :=
  match healthCheck config with
  | None => ["healthCheck configuration is required"]
  | Some h =>
      ((match hs_expectedStatus h with
        | None => ["healthCheck.expectedStatus is required"]
        | Some _ => []
        end)
       ++ (if set_and_below (hs_timeoutMs h) 100
           then ["healthCheck.timeoutMs should be at least 100ms"] else [])
       ++ (if set_and_below (hs_checkIntervalMs h) 1000
           then ["healthCheck.checkIntervalMs should be at least 1000ms"] else []))%list
  end.

Definition variable_errors (config : EnvironmentConfig) : list string :=
  match environmentVariables config with
  | Some vars =>
      match missingVars vars with
      | [] => []
      | missing =>
          ["Missing required environment variables: " ++ join ", " missing]
      end
  | None => []
  end.

Definition token_errors (token : option string) : list string :=
  if negb (option_truthy token)
  then ["VERCEL_TOKEN environment variable is not set"] else [].

(** The array [errors] when the checks are over. *)
Definition errors_of (isValidUrl : string -> bool) (config : EnvironmentConfig)
    (token : option string) : list string :=
  (project_errors config ++ url_errors isValidUrl config ++ health_errors config
   ++ variable_errors config ++ token_errors token)%list.

(** [isValidUrl], whether [new URL(url)] succeeds, is taken as given. *)
Definition validateEnvironment (isValidUrl : string -> bool)
    (config : EnvironmentConfig) : M unit :=
  token <- getenv_VERCEL_TOKEN ;;
  match errors_of isValidUrl config token with
  | [] => console_log "✅ Environment configuration validated successfully"
  | errors =>
      throw (Js.new_Error ("Environment validation failed:" ++ nl ++ "- "
                             ++ join (nl ++ "- ") errors))
  end.

(** The [DeploymentHealth] that the services receive from a validated
    section. *)
Definition as_DeploymentHealth (h : HealthSection) (expected : Js.number)
    : DeploymentHealth :=
  {| expectedStatus := expected;
     timeoutMs := hs_timeoutMs h;
     checkIntervalMs := hs_checkIntervalMs h |}.

End Validation.

(* ===================================================================== *)
(** ** The runtime and the timer of a request *)
(* ===================================================================== *)

(** [axios] above is a request whose timer the runtime has accepted.  The
    HTTP client hands [config.timeout] to [request.setTimeout], and the
    runtime refuses a negative duration with a [RangeError] that is thrown
    outside the promise of the request: no [catch] clause of the program
    sees it and the process ends there.  This module adds that fate to the
    completions and gives the prober with the timer taken into account.  (A
    duration above 2^31 - 1 is not refused; the runtime turns it into 1 ms,
    which is one of the fates that the script of the network decides.) *)
Module Runtime.

Inductive Fate (A : Type) : Type :=
| Settled (c : Completion A)
| Killed (e : Js.Value).

Arguments Settled {A} c.
Arguments Killed {A} e.

Definition P (A : Type) : Type := World -> Fate A * World * list Event.

Definition lift {A : Type} (m : M A) : P A :=
  fun w =>
    match m w with
    | (c, w', tr) => (Settled c, w', tr)
    end.

Definition bind {A B : Type} (m : P A) (k : A -> P B) : P B :=
  fun w =>
    match m w with
    | (Settled (Returned a), w1, t1) =>
        match k a w1 with
        | (f, w2, t2) => (f, w2, (t1 ++ t2)%list)
        end
    | (Settled (Threw e), w1, t1) => (Settled (Threw e), w1, t1)
    | (Settled Diverged, w1, t1) => (Settled Diverged, w1, t1)
    | (Killed e, w1, t1) => (Killed e, w1, t1)
    end.

(** [try { body } catch (error) { handler error }]: a killed process is
    not caught. *)
Definition try_catch {A : Type} (body : P A) (handler : Js.Value -> P A) : P A :=
  fun w =>
    match body w with
    | (Settled (Threw e), w1, t1) =>
        match handler e w1 with
        | (f, w2, t2) => (f, w2, (t1 ++ t2)%list)
        end
    | other => other
    end.

(** The durations that [request.setTimeout] refuses. *)
Definition timer_refused (timeout : option Js.number) : bool :=
  match timeout with
  | Some (Js.Num z) => z <? 0
  | Some Js.NaN => false
  | None => false
  end.

(** The [RangeError] of the runtime (its message goes on to name the
    argument and the value received). *)
Definition range_error : Js.Value :=
  Js.VObject {| Js.instanceofError := true;
                Js.message := Some "The value of msecs is out of range.";
                Js.response := None;
                Js.code := Some "ERR_OUT_OF_RANGE" |}.

(** [await axios(cfg)] with its timer: refused before anything is sent,
    or the request above. *)
Definition request (cfg : AxiosConfig) : P HttpResponse :=
  fun w =>
    if timer_refused (ax_timeout cfg)
    then (Killed range_error, w, [])
    else lift (axios cfg) w.

(** [checkDeploymentHealth] line by line, as [Health.checkDeploymentHealth_fuel],
    over [request]. *)
Fixpoint checkDeploymentHealth_fuel (fuel : nat) (url : string)
    (config : DeploymentHealth) (retryCount : Z) : P HealthCheckResult :=
  match fuel with
  | O => lift diverge
  | S fuel' =>
      bind (lift Date_now) (fun timestamp =>
      try_catch
        (bind (lift Date_now) (fun startTime =>
         bind (request {| ax_method := "GET";
                          ax_url := url;
                          ax_timeout :=
                            Some (Js.or_default (timeoutMs config) (Js.Num 5000));
                          ax_validateStatus := fun _ => true |}) (fun response =>
         bind (lift Date_now) (fun endTime =>
         let responseTime := endTime - startTime in
         lift (ret {| timestamp := timestamp;
                      url := url;
                      hc_status := status response;
                      healthy := Js.strict_eq (Js.Num (status response))
                                              (expectedStatus config);
                      responseTime := Some (Js.string_of_Z responseTime ++ "ms");
                      error := None |})))))
        (fun error =>
           if Js.is_object_with_message error
              && (retryCount <? Health.MAX_RETRIES)
           then
             bind (lift (console_log
                     (Health.retry_notice retryCount
                        (match error with
                         | Js.VObject o => Js.message_of o
                         | _ => ""
                         end)))) (fun _ =>
             bind (lift (sleep Health.RETRY_DELAY_MS)) (fun _ =>
             checkDeploymentHealth_fuel fuel' url config (retryCount + 1)))
           else
             lift (ret {| timestamp := timestamp;
                          url := url;
                          hc_status := 503;
                          healthy := false;
                          responseTime := None;
                          error := Some (Js.error_text error) |})))
  end.

Definition checkDeploymentHealth (url : string) (config : DeploymentHealth)
    (retryCount : Z) : P HealthCheckResult :=
  checkDeploymentHealth_fuel (Health.depth retryCount) url config retryCount.

(** The timer that the prober asks for. *)
Definition probe_timer (config : DeploymentHealth) : option Js.number :=
  Some (Js.or_default (timeoutMs config) (Js.Num 5000)).

End Runtime.

(** The range in which a JS number counts retries exactly: below it,
    [retryCount + 1] is rounded and the count stops advancing. *)
Definition exact_count (retryCount : Z) : Prop :=
  - 2 ^ 53 <= retryCount.

(* ===================================================================== *)
(** ** The command [check <url>] of the command line *)
(* ===================================================================== *)

Module Cli.

Inductive Stream : Type := stdout | stderr.

(** How the process ends: the code given to [process.exit] and the last
    line printed before it, with the stream it went to. *)
Record ProcessExit : Type := mkProcessExit {
  exit_code : Z;
  exit_stream : Stream;
  exit_line : string
}.

Definition passed_line (result : HealthCheckResult) : string :=
  "✅ Health check passed! Status: " ++ Js.string_of_Z (hc_status result)
    ++ ", Response time: "
    ++ match responseTime result with Some t => t | None => "undefined" end.

Definition failed_line (result : HealthCheckResult) : string :=
  "❌ Health check failed! Status: " ++ Js.string_of_Z (hc_status result)
    ++ match error result with
       | Some e => if Js.string_truthy e then ", Error: " ++ e else ""
       | None => ""
       end.

(** The configuration that the command builds from its two options. *)
Definition check_config (parseInt : string -> Js.number)
    (opt_timeout opt_status : string) : DeploymentHealth :=
  {| expectedStatus := parseInt opt_status;
     timeoutMs := Some (parseInt opt_timeout);
     checkIntervalMs := None |}.

(** The action of [check <url>]; [parseInt] is taken as given.  The
    timeout option reaches the HTTP client as it was parsed, so the command
    runs in the runtime, where a refused timer ends the process. *)
Definition check_command (parseInt : string -> Js.number) (url : string)
    (opt_timeout opt_status : string) : Runtime.P ProcessExit :=
  Runtime.try_catch
    (Runtime.bind
       (Runtime.lift (console_log ("🔍 Checking health of " ++ url ++ "..."))) (fun _ =>
     Runtime.bind
       (Runtime.checkDeploymentHealth url
          (check_config parseInt opt_timeout opt_status) 0) (fun result =>
     if healthy result
     then Runtime.lift (ret {| exit_code := 0; exit_stream := stdout;
                               exit_line := passed_line result |})
     else Runtime.lift (ret {| exit_code := 1; exit_stream := stderr;
                               exit_line := failed_line result |}))))
    (fun error =>
       Runtime.lift
         (ret {| exit_code := 1; exit_stream := stderr;
                 exit_line := "❌ " ++ Api.prefixed "Health check error" error |})).

End Cli.

(* ===================================================================== *)
(** ** A sample environment *)
(* ===================================================================== *)

Module SampleEnv.

(** A health section whose timeout is 0. *)
Definition section : HealthSection :=
  {| hs_expectedStatus := Some (Js.Num 200);
     hs_timeoutMs := Some (Js.Num 0);
     hs_checkIntervalMs := Some (Js.Num 60000) |}.

Definition production : EnvironmentConfig :=
  {| environmentVariables := Some [("NODE_ENV", "production")];
     vercelProject := Some "app-production";
     apiBaseUrl := Some "https://api.example.com";
     healthCheck := Some section |}.

(** Stands for [new URL(url)] succeeding. *)
Definition any_url (u : string) : bool := true.

End SampleEnv.

(* ===================================================================== *)
(** ** Reading traces, log files and console output *)
(* ===================================================================== *)

(** The time that a request takes. *)
Definition latency (fate : NetReply) : Z :=
  match fate with
  | Reply l _ => l
  | Failure l _ => l
  end.

(** The time taken by [count] requests of the script, from the request
    number [from] on. *)
Fixpoint total_latency (script : nat -> NetReply) (from count : nat) : Z :=
  match count with
  | O => 0
  | S count' => latency (script from) + total_latency script (S from) count'
  end.

(** [n] retries as beats: a wait, then an attempt, [n] times. *)
Fixpoint retry_beats (ms : Z) (n : nat) : list Beat :=
  match n with
  | O => []
  | S n' => Delay ms :: Attempt :: retry_beats ms n'
  end.

(** The number of lines at the end of a log file that carry [level]. *)
Fixpoint leading (level : string) (lines : list Monitor.LogLine) : Z :=
  match lines with
  | [] => 0
  | line :: rest =>
      if String.eqb (Monitor.ll_level line) level
      then 1 + leading level rest
      else 0
  end.

Definition trailing (level : string) (lines : list Monitor.LogLine) : Z :=
  leading level (rev lines).

(** The number of probes that settle in a sequence of events. *)
Fixpoint settles (evs : list Monitor.LoopEvent) : nat :=
  match evs with
  | [] => O
  | Monitor.ProbeSettles _ :: evs' => S (settles evs')
  | _ :: evs' => settles evs'
  end.

(** Every request of a trace is [req]. *)
Definition requests_are (req : Event) (tr : list Event) : Prop :=
  Forall (fun ev => match ev with
                    | EvRequest _ _ _ => ev = req
                    | _ => True
                    end) tr.

Fixpoint timer_fires (evs : list Monitor.LoopEvent) : nat :=
  match evs with
  | [] => O
  | Monitor.TimerFires :: evs' => S (timer_fires evs')
  | _ :: evs' => timer_fires evs'
  end.

(** The lines that [results] add to the console of [s]. *)
Fixpoint printed (results : list HealthCheckResult) (s : Monitor.State)
    : list Monitor.ConsoleCall :=
  match results with
  | [] => []
  | health :: rest =>
      let s' := Monitor.logHealthCheck health s in
      (Monitor.log_to_console health (Monitor.healthyStreak s')
         (Monitor.unhealthyStreak s') ++ printed rest s')%list
  end.

(* ===================================================================== *)
(** ** The prober, one invocation at a time *)
(* ===================================================================== *)

(** The result built in the [try] block from a response. *)
Definition from_response (timestamp : Z) (url : string)
    (config : DeploymentHealth) (latency : Z) (r : HttpResponse)
    : HealthCheckResult :=
  {| timestamp := timestamp;
     url := url;
     hc_status := status r;
     healthy := Js.strict_eq (Js.Num (status r)) (expectedStatus config);
     responseTime := Some (Js.string_of_Z latency ++ "ms");
     error := None |}.

(** The console line, the wait and the world in which the retry starts. *)
Definition retry_prefix (url : string) (config : DeploymentHealth)
    (retryCount : Z) (e : Js.Value) : list Event :=
  [ probe_request url config;
    EvConsoleLog (Health.retry_notice retryCount
                    (match e with Js.VObject o => Js.message_of o | _ => "" end));
    EvSleep Health.RETRY_DELAY_MS ].

Definition retry_world (latency : Z) (w : World) : World :=
  elapse Health.RETRY_DELAY_MS (issued (elapse latency w)).

(** What [axios] rejects with, given the fate of the request: the thrown
    value and the time it took; [None] when it resolves. *)
Definition rejection (validateStatus : Z -> bool) (fate : NetReply)
    : option (Z * Js.Value) :=
  match fate with
  | Reply l r =>
      if validateStatus (status r) then None else Some (l, axios_status_error r)
  | Failure l e => Some (l, e)
  end.

(** [process.env.VERCEL_TOKEN] is truthy. *)
Definition token_set (w : World) : bool :=
  match VERCEL_TOKEN w with
  | Some t => Js.string_truthy t
  | None => false
  end.

Definition api_request (url : string) (method : Vercel.Method) : Event :=
  EvRequest (Vercel.method_name method) url None.

Definition api_retry_prefix (url : string) (method : Vercel.Method)
    (retryCount : Z) : list Event :=
  [ api_request url method;
    EvConsoleLog (Vercel.retry_notice retryCount);
    EvSleep Vercel.RETRY_DELAY_MS ].

Definition api_retry_world (latency : Z) (w : World) : World :=
  elapse Vercel.RETRY_DELAY_MS (issued (elapse latency w)).

(** "Retryable" in the words of the specification: the error carries an
    HTTP response status of 500 or more, or the code [ECONNRESET]. *)
Definition retryable (e : Js.Value) : bool :=
  Vercel.response_status_ge_500 e || Vercel.code_is_ECONNRESET e.

(** The invariant of the two streak counters. *)
Definition streaks_ok (s : Monitor.State) : Prop :=
  (Monitor.healthyStreak s = 0 \/ Monitor.unhealthyStreak s = 0)
  /\ 0 <= Monitor.healthyStreak s
  /\ 0 <= Monitor.unhealthyStreak s.

(** Counting the requests of a trace built by [bind], given the lemma that
    distributes [attempts] over an append. *)
Ltac count_attempts_with distr :=
  cbn [attempts]; rewrite ?distr; cbn [attempts Nat.add];
  rewrite ?Nat.add_0_r.

(** Counting the notices of a console output. *)
Ltac console_counts :=
  cbn [Monitor.count filter List.length Monitor.is_success_notice
       Monitor.on_stderr Monitor.is_failure_notice Monitor.is_alert].

(** One invocation of the prober, by the fate of its request. *)
Lemma checkDeploymentHealth_fuel_S fuel url config retryCount w :
  Health.checkDeploymentHealth_fuel (S fuel) url config retryCount w =
  match net w (requests w) with
  | Reply l r =>
      (Returned (from_response (clock w) url config l r),
       issued (elapse l w), [probe_request url config])
  | Failure l e =>
      if Js.is_object_with_message e && (retryCount <? Health.MAX_RETRIES)
      then
        match Health.checkDeploymentHealth_fuel fuel url config (retryCount + 1)
                (retry_world l w) with
        | (c, w2, t2) => (c, w2, (retry_prefix url config retryCount e ++ t2)%list)
        end
      else
        (Returned (synthetic (clock w) url e),
         issued (elapse l w), [probe_request url config])
  end.
Proof.
  cbn [Health.checkDeploymentHealth_fuel].
  unfold bind, try_catch, Date_now, axios, ret; cbn.
  destruct (net w (requests w)) as [l r | l e]; cbn.
  - unfold from_response, probe_request.
    rewrite Z.add_simpl_l. reflexivity.
  - destruct (Js.is_object_with_message e && (retryCount <? Health.MAX_RETRIES)); cbn.
    + unfold retry_world.
      destruct (Health.checkDeploymentHealth_fuel fuel url config (retryCount + 1) _)
        as [[c w2] t2].
      reflexivity.
    + reflexivity.
Qed.

Lemma depth_retry retryCount :
  (retryCount <? Health.MAX_RETRIES) = true ->
  Health.depth retryCount = S (Health.depth (retryCount + 1)).
Proof.
  unfold Health.depth, Health.MAX_RETRIES. intros H.
  apply Z.ltb_lt in H. f_equal.
  replace (3 - retryCount) with (Z.succ (3 - (retryCount + 1))) by lia.
  rewrite Z2Nat.inj_succ by lia. reflexivity.
Qed.

(** The same equation for the function that callers use: the retry is the
    function itself at [retryCount + 1]. *)
Lemma checkDeploymentHealth_eq url config retryCount w :
  Health.checkDeploymentHealth url config retryCount w =
  match net w (requests w) with
  | Reply l r =>
      (Returned (from_response (clock w) url config l r),
       issued (elapse l w), [probe_request url config])
  | Failure l e =>
      if Js.is_object_with_message e && (retryCount <? Health.MAX_RETRIES)
      then
        match Health.checkDeploymentHealth url config (retryCount + 1)
                (retry_world l w) with
        | (c, w2, t2) => (c, w2, (retry_prefix url config retryCount e ++ t2)%list)
        end
      else
        (Returned (synthetic (clock w) url e),
         issued (elapse l w), [probe_request url config])
  end.
Proof.
  unfold Health.checkDeploymentHealth.
  destruct (retryCount <? Health.MAX_RETRIES) eqn:Hlt.
  - rewrite (depth_retry _ Hlt), checkDeploymentHealth_fuel_S, Hlt.
    reflexivity.
  - unfold Health.depth at 1.
    rewrite checkDeploymentHealth_fuel_S, Hlt.
    destruct (net w (requests w)) as [l r | l e]; [reflexivity|].
    rewrite andb_false_r. reflexivity.
Qed.

(** More fuel than [depth] changes nothing: the bound is never met. *)
Lemma fuel_enough url config :
  forall fuel retryCount w,
    (Health.depth retryCount <= fuel)%nat ->
    Health.checkDeploymentHealth_fuel fuel url config retryCount w =
    Health.checkDeploymentHealth url config retryCount w.
Proof.
  induction fuel as [|fuel IH]; intros retryCount w Hf.
  - unfold Health.depth in Hf. lia.
  - rewrite checkDeploymentHealth_fuel_S, checkDeploymentHealth_eq.
    destruct (net w (requests w)) as [l r | l e]; [reflexivity|].
    destruct (Js.is_object_with_message e) eqn:He; cbn [andb]; [|reflexivity].
    destruct (retryCount <? Health.MAX_RETRIES) eqn:Hlt; [|reflexivity].
    rewrite IH; [reflexivity|].
    rewrite (depth_retry _ Hlt) in Hf. lia.
Qed.

(** Every run of the prober returns a result, leaves the script of the
    network alone, issues at least one request, and its result is the one
    built from the fate of the last request issued. *)
Lemma probe_run url config :
  forall n retryCount w,
    Z.to_nat (Health.MAX_RETRIES - retryCount) = n ->
    exists res w' tr,
      Health.checkDeploymentHealth url config retryCount w = (Returned res, w', tr)
      /\ net w' = net w
      /\ (requests w < requests w')%nat
      /\ match final_fate w' with
         | Reply l r => res = from_response (clock w' - l) url config l r
         | Failure l e => res = synthetic (clock w' - l) url e
         end.
Proof.
  assert (Hlast : forall l w,
             final_fate (issued (elapse l w)) = net w (requests w)).
  { intros. reflexivity. }
  assert (Hclock : forall l w, clock (issued (elapse l w)) - l = clock w).
  { intros. cbn. lia. }
  induction n as [|n IH]; intros retryCount w Hn;
    rewrite checkDeploymentHealth_eq.
  - destruct (net w (requests w)) as [l r | l e] eqn:Hnet.
    + eexists _, _, _. split; [reflexivity|].
      rewrite Hlast, Hnet, Hclock. cbn. repeat split; lia.
    + assert (Hlt : (retryCount <? Health.MAX_RETRIES) = false).
      { apply Z.ltb_ge. unfold Health.MAX_RETRIES in *. lia. }
      rewrite Hlt, andb_false_r.
      eexists _, _, _. split; [reflexivity|].
      rewrite Hlast, Hnet, Hclock. cbn. repeat split; lia.
  - destruct (net w (requests w)) as [l r | l e] eqn:Hnet.
    + eexists _, _, _. split; [reflexivity|].
      rewrite Hlast, Hnet, Hclock. cbn. repeat split; lia.
    + destruct (Js.is_object_with_message e && (retryCount <? Health.MAX_RETRIES)).
      * destruct (IH (retryCount + 1) (retry_world l w)) as (res & w' & tr & Hrun & Hnet' & Hreq & Hres).
        { unfold Health.MAX_RETRIES in *. lia. }
        rewrite Hrun. eexists _, _, _. split; [reflexivity|].
        split; [rewrite Hnet'; reflexivity|].
        split; [cbn in Hreq; lia | exact Hres].
      * eexists _, _, _. split; [reflexivity|].
        rewrite Hlast, Hnet, Hclock. cbn. repeat split; lia.
Qed.

Lemma strict_eq_Num s n :
  Js.strict_eq (Js.Num s) n = true <-> n = Js.Num s.
Proof.
  destruct n as [z|]; cbn.
  - rewrite Z.eqb_eq. split; intros H; [subst | injection H as H]; congruence.
  - split; discriminate.
Qed.

Lemma error_text_object o :
  Js.has_message o = true ->
  Js.error_text (Js.VObject o) = Js.message_of o.
Proof.
  intros H. unfold Js.error_text, Js.is_object_with_message. cbn.
  rewrite H. destruct (Js.instanceofError o); reflexivity.
Qed.

(** The caught values that the prober retries on are the non-null objects
    with a [message] property. *)
Lemma is_object_with_message_spec e :
  Js.is_object_with_message e = true <->
  exists o, e = Js.VObject o /\ Js.has_message o = true.
Proof.
  unfold Js.is_object_with_message.
  destruct e as [| |b|n|s|o]; cbn;
    try (rewrite ?andb_false_r; split; [discriminate | intros (o' & Ho & _); discriminate]).
  split.
  - intros H. exists o. split; [reflexivity | exact H].
  - intros (o' & Ho & Hm). injection Ho as ->. exact Hm.
Qed.

(* ===================================================================== *)
(** ** The prober: claims *)
(* ===================================================================== *)

(** C1, as the claim has it, fails: against a target that refuses every
    connection the prober issues four requests, not three. *)
Lemma probe_three_attempts_counterexample :
  (forall k, exists l e, net Samples.down k = Failure l e) /\
  exists res w' tr,
    Health.checkDeploymentHealth Samples.target Samples.cfg 0 Samples.down
      = (Returned res, w', tr)
    /\ attempts tr = 4%nat
    /\ attempts tr <> 3%nat.
Proof.
  split.
  - intros k. eexists _, _. reflexivity.
  - eexists _, _, _. split; [vm_compute; reflexivity|].
    split; [reflexivity | discriminate].
Qed.

(** C1, amended: when every attempt of [checkDeploymentHealth url config]
    fails with a thrown object that has a [message] (as the errors of the
    HTTP client do), the prober makes exactly four attempts, the first one
    and [MAX_RETRIES = 3] retries, with a wait of 1000 ms between two
    attempts, and returns status 503, [healthy = false] and as [error] the
    message of the failure of the last attempt. *)
Theorem probe_all_attempts_fail url config w :
  (forall k, (requests w <= k)%nat ->
     exists l o, net w k = Failure l (Js.VObject o) /\ Js.has_message o = true) ->
  exists res w' tr l o,
    Health.checkDeploymentHealth url config 0 w = (Returned res, w', tr)
    /\ attempts tr = 4%nat
    /\ timeline tr = [Attempt; Delay 1000; Attempt; Delay 1000;
                      Attempt; Delay 1000; Attempt]
    /\ net w (requests w + 3)%nat = Failure l (Js.VObject o)
    /\ hc_status res = 503
    /\ healthy res = false
    /\ responseTime res = None
    /\ error res = Some (Js.message_of o).
Proof.
  intros Hall.
  destruct (Hall (requests w)) as (l0 & o0 & H0 & M0); [lia|].
  destruct (Hall (S (requests w))) as (l1 & o1 & H1 & M1); [lia|].
  destruct (Hall (S (S (requests w)))) as (l2 & o2 & H2 & M2); [lia|].
  destruct (Hall (S (S (S (requests w))))) as (l3 & o3 & H3 & M3); [lia|].
  exists (synthetic (clock (retry_world l2 (retry_world l1 (retry_world l0 w)))) url
            (Js.VObject o3)).
  eexists _, _, l3, o3.
  split.
  - rewrite checkDeploymentHealth_eq, H0.
    replace (Js.is_object_with_message (Js.VObject o0)) with true
      by (symmetry; apply is_object_with_message_spec; eauto).
    cbn [andb Z.ltb Z.compare Health.MAX_RETRIES Z.add].
    rewrite checkDeploymentHealth_eq.
    cbn [retry_world elapse issued net requests]. rewrite H1.
    replace (Js.is_object_with_message (Js.VObject o1)) with true
      by (symmetry; apply is_object_with_message_spec; eauto).
    cbn [andb Z.ltb Z.compare Health.MAX_RETRIES Z.add Pos.compare Pos.compare_cont].
    rewrite checkDeploymentHealth_eq.
    cbn [retry_world elapse issued net requests]. rewrite H2.
    replace (Js.is_object_with_message (Js.VObject o2)) with true
      by (symmetry; apply is_object_with_message_spec; eauto).
    cbn [andb Z.ltb Z.compare Health.MAX_RETRIES Z.add Pos.compare Pos.compare_cont Pos.add Pos.succ].
    rewrite checkDeploymentHealth_eq.
    cbn [retry_world elapse issued net requests]. rewrite H3.
    cbn [andb Z.ltb Z.compare Health.MAX_RETRIES Z.add Pos.compare Pos.compare_cont Pos.add Pos.succ].
    rewrite andb_false_r.
    reflexivity.
  - split; [reflexivity|].
    split; [reflexivity|].
    split; [rewrite <- H3; f_equal; lia|].
    cbn. rewrite (error_text_object _ M3). repeat split.
Qed.

Lemma probe_all_attempts_fail_witness :
  exists res w' tr l o,
    Health.checkDeploymentHealth Samples.target Samples.cfg 0 Samples.down
      = (Returned res, w', tr)
    /\ attempts tr = 4%nat
    /\ timeline tr = [Attempt; Delay 1000; Attempt; Delay 1000;
                      Attempt; Delay 1000; Attempt]
    /\ net Samples.down (requests Samples.down + 3)%nat = Failure l (Js.VObject o)
    /\ hc_status res = 503
    /\ healthy res = false
    /\ responseTime res = None
    /\ error res = Some (Js.message_of o).
Proof.
  apply (probe_all_attempts_fail Samples.target Samples.cfg Samples.down).
  intros k _. eexists _, _. split; reflexivity.
Defined.

(** C3: a probe whose last request received an HTTP response, whatever its
    status code, returns a result with that status and with [healthy = true]
    exactly when the status equals [config.expectedStatus]; and a response to
    the request of an invocation ends that invocation at once, with no wait
    and no further request. *)
Theorem healthy_iff_expected_status url config retryCount w c w' tr l r :
  Health.checkDeploymentHealth url config retryCount w = (c, w', tr) ->
  final_fate w' = Reply l r ->
  (exists res,
      c = Returned res
      /\ hc_status res = status r
      /\ error res = None
      /\ (healthy res = true <-> expectedStatus config = Js.Num (status r)))
  /\ (forall l0 r0, net w (requests w) = Reply l0 r0 ->
        tr = [probe_request url config] /\ w' = issued (elapse l0 w)).
Proof.
  intros Hrun Hfate. split.
  - destruct (probe_run url config _ retryCount w eq_refl)
      as (res & w1 & tr1 & Hrun1 & _ & _ & Hres).
    rewrite Hrun in Hrun1. injection Hrun1 as -> -> ->.
    rewrite Hfate in Hres. subst res.
    eexists. split; [reflexivity|]. cbn.
    split; [reflexivity|]. split; [reflexivity|].
    apply strict_eq_Num.
  - intros l0 r0 Hnet.
    rewrite checkDeploymentHealth_eq, Hnet in Hrun.
    injection Hrun as _ <- <-. split; reflexivity.
Qed.

Lemma healthy_iff_expected_status_witness :
  (exists res,
      Returned (from_response 1700000000000 Samples.target Samples.cfg 15 Samples.err500)
        = Returned res
      /\ hc_status res = 500
      /\ error res = None
      /\ (healthy res = true <-> Js.Num 200 = Js.Num 500))
  /\ (forall l0 r0, net Samples.broken (requests Samples.broken) = Reply l0 r0 ->
        [probe_request Samples.target Samples.cfg]
          = [probe_request Samples.target Samples.cfg]
        /\ issued (elapse 15 Samples.broken) = issued (elapse l0 Samples.broken)).
Proof.
  apply (healthy_iff_expected_status Samples.target Samples.cfg 0 Samples.broken
           _ _ _ 15 Samples.err500).
  - reflexivity.
  - reflexivity.
Defined.

(** One invocation of the prober in the runtime, when the timer is
    accepted. *)
Lemma runtime_fuel_S url config fuel retryCount w :
  Runtime.timer_refused (Runtime.probe_timer config) = false ->
  Runtime.checkDeploymentHealth_fuel (S fuel) url config retryCount w =
  match net w (requests w) with
  | Reply l r =>
      (Runtime.Settled (Returned (from_response (clock w) url config l r)),
       issued (elapse l w), [probe_request url config])
  | Failure l e =>
      if Js.is_object_with_message e && (retryCount <? Health.MAX_RETRIES)
      then
        match Runtime.checkDeploymentHealth_fuel fuel url config (retryCount + 1)
                (retry_world l w) with
        | (f, w2, t2) => (f, w2, (retry_prefix url config retryCount e ++ t2)%list)
        end
      else
        (Runtime.Settled (Returned (synthetic (clock w) url e)),
         issued (elapse l w), [probe_request url config])
  end.
Proof.
  intros Hok. unfold Runtime.probe_timer in Hok.
  cbn [Runtime.checkDeploymentHealth_fuel].
  unfold Runtime.bind at 1. unfold Runtime.lift at 1. unfold Date_now at 1.
  unfold Runtime.try_catch.
  unfold Runtime.bind at 1. unfold Runtime.lift at 1. unfold Date_now at 1.
  unfold Runtime.bind at 1. unfold Runtime.request.
  cbn [ax_timeout]. rewrite Hok.
  unfold Runtime.lift at 1. unfold axios.
  cbn [ax_validateStatus ax_method ax_url ax_timeout].
  destruct (net w (requests w)) as [l r | l e].
  - unfold Runtime.bind, Runtime.lift, Date_now, ret.
    cbn [elapse issued clock app].
    unfold from_response, probe_request.
    rewrite Z.add_simpl_l. reflexivity.
  - destruct (Js.is_object_with_message e && (retryCount <? Health.MAX_RETRIES)).
    + unfold Runtime.bind, Runtime.lift, console_log, emit, sleep.
      unfold retry_world.
      destruct (Runtime.checkDeploymentHealth_fuel fuel url config (retryCount + 1) _)
        as [[f w2] t2].
      reflexivity.
    + unfold Runtime.lift, ret. reflexivity.
Qed.

(** With a timer that the runtime accepts, the prober in the runtime is the
    prober above. *)
Lemma runtime_accepted url config :
  Runtime.timer_refused (Runtime.probe_timer config) = false ->
  forall fuel retryCount w,
    Runtime.checkDeploymentHealth_fuel fuel url config retryCount w
    = Runtime.lift (Health.checkDeploymentHealth_fuel fuel url config retryCount) w.
Proof.
  intros Hok. induction fuel as [|fuel IH]; intros retryCount w.
  - reflexivity.
  - rewrite (runtime_fuel_S _ _ _ _ _ Hok).
    unfold Runtime.lift. rewrite checkDeploymentHealth_fuel_S.
    destruct (net w (requests w)) as [l r | l e]; [reflexivity|].
    destruct (Js.is_object_with_message e && (retryCount <? Health.MAX_RETRIES));
      [|reflexivity].
    rewrite IH. unfold Runtime.lift.
    destruct (Health.checkDeploymentHealth_fuel fuel url config
                (retryCount + 1) (retry_world l w)) as [[c w2] t2].
    reflexivity.
Qed.

(** With a timer that the runtime refuses, the process ends at the first
    request, before anything is sent. *)
Lemma runtime_refused url config fuel retryCount w :
  Runtime.timer_refused (Runtime.probe_timer config) = true ->
  Runtime.checkDeploymentHealth_fuel (S fuel) url config retryCount w
  = (Runtime.Killed Runtime.range_error, w, []).
Proof.
  intros Hbad.
  cbn [Runtime.checkDeploymentHealth_fuel].
  unfold Runtime.bind, Runtime.try_catch, Runtime.request, Date_now.
  cbn [ax_timeout Runtime.lift].
  unfold Runtime.probe_timer in Hbad. rewrite Hbad. reflexivity.
Qed.

(** C7, as the claim has it, fails: with [timeoutMs = -5] the runtime
    refuses the timer of the request and the process ends on a [RangeError]
    that no [catch] clause sees; no [HealthCheckResult] is returned. *)
Lemma probe_killed_counterexample :
  Runtime.checkDeploymentHealth Samples.target
    {| expectedStatus := Js.Num 200; timeoutMs := Some (Js.Num (-5));
       checkIntervalMs := None |} 0 Samples.up
  = (Runtime.Killed Runtime.range_error, Samples.up, [])
  /\ forall res w' tr,
       Runtime.checkDeploymentHealth Samples.target
         {| expectedStatus := Js.Num 200; timeoutMs := Some (Js.Num (-5));
            checkIntervalMs := None |} 0 Samples.up
       <> (Runtime.Settled (Returned res), w', tr).
Proof.
  split; [reflexivity|].
  intros res w' tr H. vm_compute in H. discriminate.
Qed.

(** C7, amended: for every url, every config whose request timeout
    ([config.timeoutMs || 5000]) is not negative, and every integer
    [retryCount] in the range where a JS number counts exactly,
    [checkDeploymentHealth] returns a [HealthCheckResult]: the process is not
    killed, no thrown value escapes and the recursion ends, whatever amount
    of fuel above its depth is given. *)
Theorem checkDeploymentHealth_never_throws url config retryCount w :
  Runtime.timer_refused (Runtime.probe_timer config) = false ->
  exact_count retryCount ->
  exists res w' tr,
    Runtime.checkDeploymentHealth url config retryCount w
      = (Runtime.Settled (Returned res), w', tr)
    /\ forall fuel, (Health.depth retryCount <= fuel)%nat ->
         Runtime.checkDeploymentHealth_fuel fuel url config retryCount w
           = (Runtime.Settled (Returned res), w', tr).
Proof.
  intros Hok _.
  destruct (probe_run url config _ retryCount w eq_refl)
    as (res & w' & tr & Hrun & _).
  exists res, w', tr.
  assert (Hfuel : forall fuel, (Health.depth retryCount <= fuel)%nat ->
            Runtime.checkDeploymentHealth_fuel fuel url config retryCount w
            = (Runtime.Settled (Returned res), w', tr)).
  { intros fuel Hf. rewrite (runtime_accepted url config Hok).
    unfold Runtime.lift. rewrite fuel_enough by exact Hf. rewrite Hrun.
    reflexivity. }
  split; [|exact Hfuel].
  apply Hfuel. apply Nat.le_refl.
Qed.

Lemma checkDeploymentHealth_never_throws_witness :
  exists res w' tr,
    Runtime.checkDeploymentHealth Samples.target Samples.cfg (-2) Samples.down
      = (Runtime.Settled (Returned res), w', tr)
    /\ forall fuel, (Health.depth (-2) <= fuel)%nat ->
         Runtime.checkDeploymentHealth_fuel fuel Samples.target Samples.cfg (-2)
           Samples.down
           = (Runtime.Settled (Returned res), w', tr).
Proof.
  apply (checkDeploymentHealth_never_throws Samples.target Samples.cfg (-2)
           Samples.down).
  - reflexivity.
  - unfold exact_count. lia.
Defined.

(** C8, as the claim has it, fails: the field of the result that carries
    the elapsed time holds a string, here ["42ms"], not an integer. *)
Lemma responseTime_optional_int_counterexample :
  exists res w' tr l r,
    Health.checkDeploymentHealth Samples.target Samples.cfg 0 Samples.up
      = (Returned res, w', tr)
    /\ final_fate w' = Reply l r
    /\ responseTime_value res = Js.VString "42ms"
    /\ is_optional_int (responseTime_value res) = false.
Proof.
  eexists _, _, _, _, _.
  split; [vm_compute; reflexivity|].
  split; [reflexivity|].
  split; reflexivity.
Qed.

(** C8, amended: a probe whose last request received a response records the
    elapsed time in the field [responseTime], an optional string made of the
    decimal number of milliseconds followed by ["ms"]; on a terminal
    transport failure the field is absent. *)
Theorem responseTime_recorded url config retryCount w c w' tr :
  Health.checkDeploymentHealth url config retryCount w = (c, w', tr) ->
  exists res,
    c = Returned res
    /\ (forall l r, final_fate w' = Reply l r ->
          responseTime res = Some (Js.string_of_Z l ++ "ms")
          /\ timestamp res + l = clock w')
    /\ (forall l e, final_fate w' = Failure l e ->
          responseTime res = None).
Proof.
  intros Hrun.
  destruct (probe_run url config _ retryCount w eq_refl)
    as (res & w1 & tr1 & Hrun1 & _ & _ & Hres).
  rewrite Hrun in Hrun1. injection Hrun1 as -> -> ->.
  exists res. split; [reflexivity|].
  split; intros l x Hfate; rewrite Hfate in Hres; subst res; cbn.
  - split; [reflexivity | lia].
  - reflexivity.
Qed.

Lemma responseTime_recorded_witness :
  exists res,
    Returned (from_response 1700000000000 Samples.target Samples.cfg 42 Samples.ok200)
      = Returned res
    /\ (forall l r, final_fate (issued (elapse 42 Samples.up)) = Reply l r ->
          responseTime res = Some (Js.string_of_Z l ++ "ms")
          /\ timestamp res + l = clock (issued (elapse 42 Samples.up)))
    /\ (forall l e, final_fate (issued (elapse 42 Samples.up)) = Failure l e ->
          responseTime res = None).
Proof.
  apply (responseTime_recorded Samples.target Samples.cfg 0 Samples.up
           _ _ [probe_request Samples.target Samples.cfg]).
  reflexivity.
Defined.

(** C10: on a caught value [e], [checkDeploymentHealth] retries (one console
    line, a wait of 1000 ms, then itself at [retryCount + 1]) exactly when [e]
    is a non-null object with a [message] property and [retryCount] is below
    [MAX_RETRIES]; on any other value it makes no further request and no
    wait, and returns at once status 503, [healthy = false] and as [error]
    the message of an [Error], the thrown string itself, the message of an
    object that has one, or ["Unknown error"]. *)
Theorem retry_only_on_object_with_message url config retryCount w l e :
  net w (requests w) = Failure l e ->
  let retry := Js.is_object_with_message e && (retryCount <? Health.MAX_RETRIES) in
  (retry = true <->
     (exists o, e = Js.VObject o /\ Js.has_message o = true)
     /\ retryCount < Health.MAX_RETRIES)
  /\ (retry = true ->
        exists c w2 t2,
          Health.checkDeploymentHealth url config (retryCount + 1) (retry_world l w)
            = (c, w2, t2)
          /\ Health.checkDeploymentHealth url config retryCount w
            = (c, w2, (retry_prefix url config retryCount e ++ t2)%list))
  /\ (retry = false ->
        Health.checkDeploymentHealth url config retryCount w
          = (Returned {| timestamp := clock w; url := url; hc_status := 503;
                         healthy := false; responseTime := None;
                         error := Some (Js.error_text e) |},
             issued (elapse l w), [probe_request url config]))
  /\ (forall o, e = Js.VObject o -> Js.instanceofError o = true ->
        Js.error_text e = Js.message_of o)
  /\ (forall s, e = Js.VString s -> Js.error_text e = s)
  /\ (forall o, e = Js.VObject o -> Js.has_message o = true ->
        Js.error_text e = Js.message_of o)
  /\ ((forall s, e <> Js.VString s) ->
      (forall o, e = Js.VObject o -> Js.has_message o = false) ->
        Js.error_text e = "Unknown error").
Proof.
  intros Hnet retry. subst retry.
  split.
  { rewrite andb_true_iff, is_object_with_message_spec, Z.ltb_lt. reflexivity. }
  split.
  { intros Hretry.
    destruct (Health.checkDeploymentHealth url config (retryCount + 1) (retry_world l w))
      as [[c w2] t2] eqn:Hrec.
    exists c, w2, t2. split; [reflexivity|].
    rewrite checkDeploymentHealth_eq, Hnet, Hretry, Hrec. reflexivity. }
  split.
  { intros Hretry.
    rewrite checkDeploymentHealth_eq, Hnet, Hretry. reflexivity. }
  split.
  { intros o -> Ho. apply error_text_object.
    unfold Js.has_message. rewrite Ho. reflexivity. }
  split.
  { intros s ->. reflexivity. }
  split.
  { intros o -> Ho. apply error_text_object. exact Ho. }
  intros Hs Ho.
  destruct e as [| |b|n|s|o];
    try (unfold Js.error_text, Js.is_object_with_message; cbn;
         rewrite ?andb_false_r; reflexivity).
  - exfalso. apply (Hs s). reflexivity.
  - specialize (Ho o eq_refl).
    unfold Js.error_text, Js.is_object_with_message. cbn.
    rewrite Ho.
    unfold Js.has_message in Ho. apply orb_false_iff in Ho as [Hi _].
    rewrite Hi. reflexivity.
Qed.

Lemma retry_only_on_object_with_message_witness :
  Health.checkDeploymentHealth Samples.target Samples.cfg 0 Samples.throws_text
    = (Returned {| timestamp := 1700000000000; url := Samples.target;
                   hc_status := 503; healthy := false; responseTime := None;
                   error := Some "boom" |},
       issued (elapse 1 Samples.throws_text),
       [probe_request Samples.target Samples.cfg]).
Proof.
  exact (proj1 (proj2 (proj2
           (retry_only_on_object_with_message Samples.target Samples.cfg 0
              Samples.throws_text 1 (Js.VString "boom") eq_refl)))
         eq_refl).
Defined.

(* ===================================================================== *)
(** ** The outer API call *)
(* ===================================================================== *)

Lemma api_depth_retry retryCount :
  (retryCount <? Vercel.MAX_RETRIES) = true ->
  Vercel.depth retryCount = S (Vercel.depth (retryCount + 1)).
Proof.
  unfold Vercel.depth, Vercel.MAX_RETRIES. intros H.
  apply Z.ltb_lt in H. f_equal.
  replace (3 - retryCount) with (Z.succ (3 - (retryCount + 1))) by lia.
  rewrite Z2Nat.inj_succ by lia. reflexivity.
Qed.

Lemma retries_below error retryCount :
  Vercel.retries error retryCount = true ->
  (retryCount <? Vercel.MAX_RETRIES) = true.
Proof.
  unfold Vercel.retries. intros H.
  apply andb_true_iff in H as [H _].
  apply andb_true_iff in H as [_ H]. exact H.
Qed.

(** One invocation of [makeVercelApiCall] whose request is rejected. *)
Lemma makeVercelApiCall_fuel_caught fuel url method retryCount w l e :
  token_set w = true ->
  rejection default_validateStatus (net w (requests w)) = Some (l, e) ->
  Vercel.makeVercelApiCall_fuel (S fuel) url method retryCount w =
  if Vercel.retries e retryCount
  then
    match Vercel.makeVercelApiCall_fuel fuel url method (retryCount + 1)
            (api_retry_world l w) with
    | (c, w2, t2) => (c, w2, (api_retry_prefix url method retryCount ++ t2)%list)
    end
  else
    (Threw (Js.new_Error (Vercel.final_message e)),
     issued (elapse l w), [api_request url method]).
Proof.
  intros Htok Hrej.
  cbn [Vercel.makeVercelApiCall_fuel].
  unfold bind at 1. unfold getenv_VERCEL_TOKEN at 1.
  unfold token_set in Htok. rewrite Htok. cbn [negb].
  unfold try_catch, bind, axios, ret; cbn.
  unfold rejection in Hrej.
  destruct (net w (requests w)) as [l0 r | l0 e0].
  - destruct (default_validateStatus (status r)); [discriminate|].
    injection Hrej as -> <-. cbn.
    destruct (Vercel.retries (axios_status_error r) retryCount); cbn.
    + unfold api_retry_world.
      destruct (Vercel.makeVercelApiCall_fuel fuel url method (retryCount + 1) _)
        as [[c w2] t2].
      reflexivity.
    + reflexivity.
  - injection Hrej as -> ->. cbn.
    destruct (Vercel.retries e retryCount); cbn.
    + unfold api_retry_world.
      destruct (Vercel.makeVercelApiCall_fuel fuel url method (retryCount + 1) _)
        as [[c w2] t2].
      reflexivity.
    + reflexivity.
Qed.

Lemma makeVercelApiCall_caught url method retryCount w l e :
  token_set w = true ->
  rejection default_validateStatus (net w (requests w)) = Some (l, e) ->
  Vercel.makeVercelApiCall url method retryCount w =
  if Vercel.retries e retryCount
  then
    match Vercel.makeVercelApiCall url method (retryCount + 1)
            (api_retry_world l w) with
    | (c, w2, t2) => (c, w2, (api_retry_prefix url method retryCount ++ t2)%list)
    end
  else
    (Threw (Js.new_Error (Vercel.final_message e)),
     issued (elapse l w), [api_request url method]).
Proof.
  intros Htok Hrej.
  unfold Vercel.makeVercelApiCall.
  destruct (Vercel.retries e retryCount) eqn:Hretry.
  - rewrite (api_depth_retry _ (retries_below _ _ Hretry)).
    rewrite (makeVercelApiCall_fuel_caught _ _ _ _ _ _ _ Htok Hrej), Hretry.
    reflexivity.
  - unfold Vercel.depth at 1.
    rewrite (makeVercelApiCall_fuel_caught _ _ _ _ _ _ _ Htok Hrej), Hretry.
    reflexivity.
Qed.

(** C9: the code at the input where it departs from the claim.  A
    connection-reset error of the HTTP client carries the code [ECONNRESET]
    and no [response] property; it is retryable in the claim's sense and
    [retryCount] is below the bound, yet the guard ['response' in error] in
    front of the test on the code makes [makeVercelApiCall] give up after
    one request, with no wait: the test on [ECONNRESET] that the code
    writes can never decide a retry for such an error. *)
Lemma api_retry_counterexample :
  retryable Samples.reset = true
  /\ 0 < Vercel.MAX_RETRIES
  /\ token_set Samples.resetting = true
  /\ rejection default_validateStatus
       (net Samples.resetting (requests Samples.resetting))
     = Some (3, Samples.reset)
  /\ Vercel.retries Samples.reset 0 = false
  /\ Vercel.makeVercelApiCall Samples.target Vercel.get 0 Samples.resetting
     = (Threw (Js.new_Error "read ECONNRESET"),
        issued (elapse 3 Samples.resetting),
        [api_request Samples.target Vercel.get]).
Proof.
  repeat split; vm_compute; reflexivity.
Qed.

(* ===================================================================== *)
(** ** The monitor *)
(* ===================================================================== *)

Lemma logHealthCheck_streaks health s :
  (healthy health = true ->
     Monitor.healthyStreak (Monitor.logHealthCheck health s)
       = Monitor.healthyStreak s + 1
     /\ Monitor.unhealthyStreak (Monitor.logHealthCheck health s) = 0)
  /\ (healthy health = false ->
     Monitor.unhealthyStreak (Monitor.logHealthCheck health s)
       = Monitor.unhealthyStreak s + 1
     /\ Monitor.healthyStreak (Monitor.logHealthCheck health s) = 0).
Proof.
  unfold Monitor.logHealthCheck, Monitor.update_streaks.
  destruct (healthy health); cbn; split; intros H;
    try discriminate; split; reflexivity.
Qed.

Lemma logHealthCheck_ok health s :
  streaks_ok s -> streaks_ok (Monitor.logHealthCheck health s).
Proof.
  unfold streaks_ok. intros (Hone & Hh & Hu).
  destruct (logHealthCheck_streaks health s) as [Ht Hf].
  destruct (healthy health).
  - destruct (Ht eq_refl) as [-> ->]. lia.
  - destruct (Hf eq_refl) as [-> ->]. lia.
Qed.

Lemma dispatch_ok ev s s' :
  Monitor.dispatch ev s = Some s' -> streaks_ok s -> streaks_ok s'.
Proof.
  destruct ev as [|w|]; unfold Monitor.dispatch.
  - destruct (Monitor.interval_armed s); [|discriminate].
    intros H; injection H as <-. exact (fun H => H).
  - destruct (Monitor.in_flight s) as [|n]; [discriminate|].
    destruct (Health.checkDeploymentHealth (Monitor.st_url s) (Monitor.config s) 0 w)
      as [[[health|e|] w'] tr];
      intros H; injection H as <-; intros Hok.
    + apply logHealthCheck_ok. exact Hok.
    + exact Hok.
    + exact Hok.
  - intros H; injection H as <-. exact (fun H => H).
Qed.

Lemma reachable_streaks_ok s :
  Monitor.Reachable s -> streaks_ok s.
Proof.
  induction 1 as [url config now | health s Hs IH | ev s s' Hs IH Hd].
  - unfold streaks_ok. cbn. lia.
  - apply logHealthCheck_ok. exact IH.
  - exact (dispatch_ok _ _ _ Hd IH).
Qed.

Lemma process_healthy results :
  forall s,
    Forall (fun h => healthy h = true) results ->
    Monitor.unhealthyStreak s = 0 ->
    Monitor.healthyStreak (Monitor.process results s)
      = Monitor.healthyStreak s + Z.of_nat (List.length results)
    /\ Monitor.unhealthyStreak (Monitor.process results s) = 0.
Proof.
  induction results as [|h results IH]; intros s Hall Hu.
  - cbn. split; [lia | exact Hu].
  - inversion Hall as [|h' rs Hh Hrest]; subst.
    destruct (logHealthCheck_streaks h s) as [Ht _].
    destruct (Ht Hh) as [Hhs Hus].
    change (Monitor.process (h :: results) s)
      with (Monitor.process results (Monitor.logHealthCheck h s)).
    destruct (IH _ Hrest Hus) as [IHh IHu].
    rewrite IHh, Hhs, IHu. cbn [List.length]. split; lia.
Qed.

(** C4: from a state with both streak counters 0, after [n] healthy results
    in a row [healthyStreak = n] and [unhealthyStreak = 0], and the first
    unhealthy result after them sets [healthyStreak] to 0 and
    [unhealthyStreak] to 1. *)
Theorem streaks_after_healthy_run s results :
  Monitor.healthyStreak s = 0 ->
  Monitor.unhealthyStreak s = 0 ->
  Forall (fun h => healthy h = true) results ->
  Monitor.healthyStreak (Monitor.process results s) = Z.of_nat (List.length results)
  /\ Monitor.unhealthyStreak (Monitor.process results s) = 0
  /\ forall bad, healthy bad = false ->
       Monitor.healthyStreak
         (Monitor.logHealthCheck bad (Monitor.process results s)) = 0
       /\ Monitor.unhealthyStreak
            (Monitor.logHealthCheck bad (Monitor.process results s)) = 1.
Proof.
  intros Hh Hu Hall.
  destruct (process_healthy results s Hall Hu) as [Hh' Hu'].
  split; [lia|]. split; [exact Hu'|].
  intros bad Hbad.
  destruct (logHealthCheck_streaks bad (Monitor.process results s)) as [_ Hf].
  destruct (Hf Hbad) as [Hus Hhs].
  split; [exact Hhs | lia].
Qed.

Lemma streaks_after_healthy_run_witness :
  Monitor.healthyStreak
    (Monitor.process [Samples.good; Samples.good; Samples.good] Samples.session)
    = 3
  /\ Monitor.unhealthyStreak
       (Monitor.process [Samples.good; Samples.good; Samples.good] Samples.session)
     = 0
  /\ forall bad, healthy bad = false ->
       Monitor.healthyStreak
         (Monitor.logHealthCheck bad
            (Monitor.process [Samples.good; Samples.good; Samples.good]
               Samples.session)) = 0
       /\ Monitor.unhealthyStreak
            (Monitor.logHealthCheck bad
               (Monitor.process [Samples.good; Samples.good; Samples.good]
                  Samples.session)) = 1.
Proof.
  apply (streaks_after_healthy_run Samples.session
           [Samples.good; Samples.good; Samples.good]).
  - reflexivity.
  - reflexivity.
  - repeat constructor.
Defined.

(** C5: in every state that a session can reach, whatever the probe
    results, at most one of [healthyStreak] and [unhealthyStreak] is not 0
    and neither is negative; and a processed result increments one counter
    and leaves the other at 0. *)
Theorem streaks_invariant s :
  Monitor.Reachable s ->
  (Monitor.healthyStreak s = 0 \/ Monitor.unhealthyStreak s = 0)
  /\ 0 <= Monitor.healthyStreak s
  /\ 0 <= Monitor.unhealthyStreak s
  /\ forall health,
       (Monitor.healthyStreak (Monitor.logHealthCheck health s)
          = Monitor.healthyStreak s + 1
        /\ Monitor.unhealthyStreak (Monitor.logHealthCheck health s) = 0)
       \/ (Monitor.unhealthyStreak (Monitor.logHealthCheck health s)
             = Monitor.unhealthyStreak s + 1
           /\ Monitor.healthyStreak (Monitor.logHealthCheck health s) = 0).
Proof.
  intros Hs.
  destruct (reachable_streaks_ok s Hs) as (Hone & Hh & Hu).
  repeat split; try assumption.
  intros health.
  destruct (logHealthCheck_streaks health s) as [Ht Hf].
  destruct (healthy health).
  - left. exact (Ht eq_refl).
  - right. exact (Hf eq_refl).
Qed.

Lemma streaks_invariant_witness :
  (Monitor.healthyStreak (Monitor.logHealthCheck Samples.bad Samples.session) = 0
   \/ Monitor.unhealthyStreak (Monitor.logHealthCheck Samples.bad Samples.session) = 0)
  /\ 0 <= Monitor.healthyStreak (Monitor.logHealthCheck Samples.bad Samples.session)
  /\ 0 <= Monitor.unhealthyStreak (Monitor.logHealthCheck Samples.bad Samples.session)
  /\ forall health,
       (Monitor.healthyStreak
          (Monitor.logHealthCheck health
             (Monitor.logHealthCheck Samples.bad Samples.session))
          = Monitor.healthyStreak
              (Monitor.logHealthCheck Samples.bad Samples.session) + 1
        /\ Monitor.unhealthyStreak
             (Monitor.logHealthCheck health
                (Monitor.logHealthCheck Samples.bad Samples.session)) = 0)
       \/ (Monitor.unhealthyStreak
             (Monitor.logHealthCheck health
                (Monitor.logHealthCheck Samples.bad Samples.session))
             = Monitor.unhealthyStreak
                 (Monitor.logHealthCheck Samples.bad Samples.session) + 1
           /\ Monitor.healthyStreak
                (Monitor.logHealthCheck health
                   (Monitor.logHealthCheck Samples.bad Samples.session)) = 0).
Proof.
  apply (streaks_invariant (Monitor.logHealthCheck Samples.bad Samples.session)).
  apply Monitor.reach_result. apply Monitor.reach_start.
Defined.

(** C6: when a result is processed in a reachable state: if it is healthy,
    one success notice is printed exactly when the updated [healthyStreak]
    is 1 or a positive multiple of 5, nothing else is printed and nothing
    goes to the error stream; if it is unhealthy, one failure notice is
    printed every time, an alert is printed as well exactly when the updated
    [unhealthyStreak] is 3 or more, and no success notice is printed. *)
Theorem console_policy s health :
  Monitor.Reachable s ->
  exists out,
    Monitor.console (Monitor.logHealthCheck health s)
      = (Monitor.console s ++ out)%list
    /\ (healthy health = true ->
          (Monitor.count Monitor.is_success_notice out = 1%nat <->
             Monitor.healthyStreak (Monitor.logHealthCheck health s) = 1
             \/ exists k, 0 < k
                  /\ Monitor.healthyStreak (Monitor.logHealthCheck health s) = 5 * k)
          /\ (Monitor.healthyStreak (Monitor.logHealthCheck health s) = 1 ->
                out = [Monitor.console_log
                         (Monitor.Passed (url health) (hc_status health))])
          /\ (Monitor.healthyStreak (Monitor.logHealthCheck health s) <> 1 ->
                Monitor.count Monitor.is_success_notice out = 1%nat ->
                out = [Monitor.console_log
                         (Monitor.Stable
                            (Monitor.healthyStreak (Monitor.logHealthCheck health s)))])
          /\ List.length out = Monitor.count Monitor.is_success_notice out
          /\ (List.length out <= 1)%nat
          /\ Monitor.count Monitor.on_stderr out = 0%nat)
    /\ (healthy health = false ->
          Monitor.count Monitor.is_failure_notice out = 1%nat
          /\ (Monitor.count Monitor.is_alert out = 1%nat <->
                3 <= Monitor.unhealthyStreak (Monitor.logHealthCheck health s))
          /\ (Monitor.count Monitor.is_alert out <= 1)%nat
          /\ List.length out
               = (1 + Monitor.count Monitor.is_alert out)%nat
          /\ Monitor.count Monitor.is_success_notice out = 0%nat).
Proof.
  intros Hs.
  destruct (reachable_streaks_ok s Hs) as (_ & Hh & Hu).
  unfold Monitor.logHealthCheck, Monitor.update_streaks, Monitor.log_to_console.
  destruct (healthy health) eqn:Hhealthy;
    cbn [Monitor.console Monitor.healthyStreak Monitor.unhealthyStreak fst snd].
  - destruct (Monitor.healthyStreak s + 1 =? 1) eqn:H1.
    + eexists. split; [reflexivity|].
      split; [|intros; discriminate].
      intros _. console_counts. apply Z.eqb_eq in H1.
      repeat split; auto. intros Hne. contradiction.
    + destruct (Z.rem (Monitor.healthyStreak s + 1) 5 =? 0) eqn:H5.
      * eexists. split; [reflexivity|].
        split; [|intros; discriminate].
        intros _. console_counts. apply Z.eqb_eq in H5.
        apply Z.rem_divide in H5; [|lia]. destruct H5 as [k Hk].
        apply Z.eqb_neq in H1.
        repeat split; auto.
        -- intros _. right. exists k. lia.
        -- intros Hone. contradiction.
      * eexists. split; [reflexivity|].
        split; [|intros; discriminate].
        intros _. console_counts. apply Z.eqb_neq in H1. apply Z.eqb_neq in H5.
        repeat split; auto; try discriminate.
        -- intros [H | (k & Hk & Hm)]; [lia|].
           exfalso. apply H5. apply Z.rem_divide; [lia|]. exists k. lia.
        -- intros Hone. contradiction.
  - destruct (3 <=? Monitor.unhealthyStreak s + 1) eqn:H3.
    + eexists. split; [reflexivity|].
      split; [intros; discriminate|].
      intros _. console_counts. apply Z.leb_le in H3.
      repeat split; auto.
    + eexists. split; [reflexivity|].
      split; [intros; discriminate|].
      intros _. console_counts. apply Z.leb_gt in H3.
      repeat split; auto; try discriminate.
      intros H. lia.
Qed.

Lemma console_policy_witness :
  Monitor.Reachable Samples.session
  /\ exists out,
       Monitor.console (Monitor.logHealthCheck Samples.good Samples.session)
         = (Monitor.console Samples.session ++ out)%list
       /\ Monitor.count Monitor.is_success_notice out = 1%nat.
Proof.
  split; [apply Monitor.reach_start|].
  destruct (console_policy Samples.session Samples.good
              (Monitor.reach_start Samples.target Samples.cfg 1700000000000))
    as (out & Hout & Hgood & _).
  exists out. split; [exact Hout|].
  apply (proj1 (Hgood eq_refl)). left. reflexivity.
Defined.

(** What holds of every continuation of a session whose interval is
    cleared: the interval stays cleared, no timer event takes place, and each
    line appended to the log file is paid for by one probe that was pending. *)
Lemma run_cleared evs :
  forall s s',
    Monitor.interval_armed s = false ->
    Monitor.run evs s = Some s' ->
    Monitor.interval_armed s' = false
    /\ ~ In Monitor.TimerFires evs
    /\ exists added,
         Monitor.logFile s' = (Monitor.logFile s ++ added)%list
         /\ (List.length added + Monitor.in_flight s' <= Monitor.in_flight s)%nat.
Proof.
  induction evs as [|ev evs IH]; intros s s' Hoff Hrun.
  - cbn in Hrun. injection Hrun as <-.
    split; [exact Hoff|]. split; [intros []|].
    exists []. rewrite app_nil_r. split; [reflexivity | cbn; lia].
  - cbn [Monitor.run] in Hrun.
    destruct (Monitor.dispatch ev s) as [s1|] eqn:Hd; [|discriminate].
    apply IH in Hrun.
    + destruct Hrun as (Hoff' & Hno & added & Hlog & Hlen).
      split; [exact Hoff'|].
      destruct ev as [|w|]; unfold Monitor.dispatch in Hd.
      * rewrite Hoff in Hd. discriminate.
      * split; [intros [H|H]; [discriminate | exact (Hno H)]|].
        destruct (Monitor.in_flight s) as [|n] eqn:Hn; [discriminate|].
        destruct (Health.checkDeploymentHealth (Monitor.st_url s) (Monitor.config s) 0 w)
          as [[[health|e|] w'] tr]; injection Hd as <-.
        -- exists (Monitor.logMessage health :: added).
           split.
           ++ rewrite Hlog. cbn. rewrite <- app_assoc. reflexivity.
           ++ cbn in Hlen |- *. lia.
        -- exists added. split; [exact Hlog | cbn in Hlen; lia].
        -- exists added. split; [exact Hlog | cbn in Hlen; lia].
      * split; [intros [H|H]; [discriminate | exact (Hno H)]|].
        injection Hd as <-.
        exists added. split; [exact Hlog | exact Hlen].
    + destruct ev as [|w|]; unfold Monitor.dispatch in Hd.
      * rewrite Hoff in Hd. discriminate.
      * destruct (Monitor.in_flight s) as [|n]; [discriminate|].
        destruct (Health.checkDeploymentHealth (Monitor.st_url s) (Monitor.config s) 0 w)
          as [[[health|e|] w'] tr]; injection Hd as <-; exact Hoff.
      * injection Hd as <-. reflexivity.
Qed.

(** C2, as the claim has it, fails: the session is cancelled right after
    [setupHealthMonitoring] returns, while its first probe is in flight; when
    that probe settles, its result is appended to the log file. *)
Lemma cancel_discards_counterexample :
  Monitor.Reachable Samples.session
  /\ Monitor.logFile (Monitor.cancel Samples.session) = []
  /\ exists s',
       Monitor.run [Monitor.ProbeSettles Samples.up]
         (Monitor.cancel Samples.session) = Some s'
       /\ List.length (Monitor.logFile s') = 1%nat
       /\ Monitor.logFile s' <> Monitor.logFile (Monitor.cancel Samples.session).
Proof.
  split; [apply Monitor.reach_start|].
  split; [reflexivity|].
  eexists. split; [vm_compute; reflexivity|].
  split; [reflexivity | discriminate].
Qed.

Lemma run_app evs1 :
  forall evs2 s,
    Monitor.run (evs1 ++ evs2) s
    = match Monitor.run evs1 s with
      | Some s1 => Monitor.run evs2 s1
      | None => None
      end.
Proof.
  induction evs1 as [|ev evs1 IH]; intros evs2 s; [reflexivity|].
  cbn [app Monitor.run].
  destruct (Monitor.dispatch ev s) as [s1|]; [apply IH | reflexivity].
Qed.

(** A probe that settles is logged, cancelled session or not. *)
Lemma settle_logs w s :
  Monitor.in_flight s <> 0%nat ->
  exists res w1 tr,
    Health.checkDeploymentHealth (Monitor.st_url s) (Monitor.config s) 0 w
      = (Returned res, w1, tr)
    /\ Monitor.dispatch (Monitor.ProbeSettles w) s
       = Some (Monitor.logHealthCheck res
                 (Monitor.with_in_flight (Nat.pred (Monitor.in_flight s)) s)).
Proof.
  intros Hfl.
  destruct (probe_run (Monitor.st_url s) (Monitor.config s) _ 0 w eq_refl)
    as (res & w1 & tr & Hrun & _).
  exists res, w1, tr. split; [exact Hrun|].
  unfold Monitor.dispatch.
  destruct (Monitor.in_flight s) as [|n]; [congruence|].
  rewrite Hrun. reflexivity.
Qed.

Lemma run_cleared_exact evs :
  forall s s',
    Monitor.interval_armed s = false ->
    Monitor.run evs s = Some s' ->
    exists added,
      Monitor.logFile s' = (Monitor.logFile s ++ added)%list
      /\ List.length added = settles evs
      /\ (Monitor.in_flight s' + settles evs = Monitor.in_flight s)%nat.
Proof.
  induction evs as [|ev evs IH]; intros s s' Hoff Hrun.
  - cbn in Hrun. injection Hrun as <-.
    exists []. rewrite app_nil_r. cbn. repeat split; lia.
  - cbn [Monitor.run] in Hrun.
    destruct (Monitor.dispatch ev s) as [s1|] eqn:Hd; [|discriminate].
    destruct ev as [|w|].
    + unfold Monitor.dispatch in Hd. rewrite Hoff in Hd. discriminate.
    + destruct (Monitor.in_flight s) as [|n] eqn:Hn;
        [unfold Monitor.dispatch in Hd; rewrite Hn in Hd; discriminate|].
      destruct (settle_logs w s ltac:(lia)) as (res & w1 & tr & _ & Hd').
      rewrite Hd' in Hd. injection Hd as <-.
      apply IH in Hrun; [|exact Hoff].
      destruct Hrun as (added & Hlog & Hlen & Hfl).
      exists (Monitor.logMessage res :: added).
      split; [rewrite Hlog; cbn; rewrite <- app_assoc; reflexivity|].
      rewrite Hn in Hfl. cbn in Hfl |- *. split; lia.
    + unfold Monitor.dispatch in Hd. injection Hd as <-.
      apply IH in Hrun; [|reflexivity].
      destruct Hrun as (added & Hlog & Hlen & Hfl).
      exists added. split; [exact Hlog|]. cbn in Hfl |- *. split; lia.
Qed.

(** C2, amended: once the cancel function has run, the interval stays
    cleared and no timer tick takes place, so no new probe is started; but
    the result of a probe that was in flight at that time is not discarded:
    when it settles, its line is appended to the log file.  The lines
    appended after cancellation are exactly one for each probe that settled
    since, and none when no probe was in flight. *)
Theorem after_cancel s evs s' :
  Monitor.run evs (Monitor.cancel s) = Some s' ->
  Monitor.interval_armed s' = false
  /\ ~ In Monitor.TimerFires evs
  /\ (Monitor.in_flight s' <= Monitor.in_flight s)%nat
  /\ (exists added,
        Monitor.logFile s' = (Monitor.logFile s ++ added)%list
        /\ List.length added = settles evs
        /\ (Monitor.in_flight s' + settles evs = Monitor.in_flight s)%nat)
  /\ (Monitor.in_flight s = 0%nat -> Monitor.logFile s' = Monitor.logFile s)
  /\ (forall w, Monitor.in_flight s' <> 0%nat ->
        exists res w1 tr s1,
          Health.checkDeploymentHealth (Monitor.st_url s') (Monitor.config s') 0 w
            = (Returned res, w1, tr)
          /\ Monitor.run (evs ++ [Monitor.ProbeSettles w]) (Monitor.cancel s)
             = Some s1
          /\ Monitor.logFile s1
             = (Monitor.logFile s' ++ [Monitor.logMessage res])%list).
Proof.
  intros Hrun.
  destruct (run_cleared evs (Monitor.cancel s) s' eq_refl Hrun)
    as (Hoff & Hno & _).
  destruct (run_cleared_exact evs (Monitor.cancel s) s' eq_refl Hrun)
    as (added & Hlog & Hlen & Hfl).
  cbn [Monitor.cancel Monitor.logFile Monitor.in_flight] in Hlog, Hfl.
  split; [exact Hoff|]. split; [exact Hno|].
  split; [lia|].
  split; [exists added; repeat split; assumption|].
  split.
  { intros Hzero. rewrite Hlog.
    destruct added as [|x added]; [apply app_nil_r|].
    cbn in Hlen. lia. }
  intros w Hpending.
  destruct (settle_logs w s' Hpending) as (res & w1 & tr & Hprobe & Hd).
  eexists res, w1, tr, _.
  split; [exact Hprobe|].
  rewrite run_app, Hrun. cbn [Monitor.run]. rewrite Hd.
  split; reflexivity.
Qed.

Lemma after_cancel_witness :
  Monitor.run [Monitor.CancelCalled] (Monitor.cancel Samples.session)
  = Some (Monitor.cancel (Monitor.cancel Samples.session))
  /\ exists res w1 tr s1,
       Health.checkDeploymentHealth Samples.target Samples.cfg 0 Samples.up
         = (Returned res, w1, tr)
       /\ Monitor.run ([Monitor.CancelCalled] ++ [Monitor.ProbeSettles Samples.up])
            (Monitor.cancel Samples.session)
          = Some s1
       /\ Monitor.logFile s1
          = (Monitor.logFile (Monitor.cancel (Monitor.cancel Samples.session))
             ++ [Monitor.logMessage res])%list.
Proof.
  split; [reflexivity|].
  refine (proj2 (proj2 (proj2 (proj2 (proj2
            (after_cancel Samples.session [Monitor.CancelCalled] _ eq_refl)))))
            Samples.up _).
  discriminate.
Defined.

(* ===================================================================== *)
(** ** The prober: further properties *)
(* ===================================================================== *)

Lemma probe_timeline_aux url config :
  forall m retryCount w c w' tr,
    Z.to_nat (Health.MAX_RETRIES - retryCount) = m ->
    Health.checkDeploymentHealth url config retryCount w = (c, w', tr) ->
    exists n,
      (n <= m)%nat
      /\ timeline tr = Attempt :: retry_beats Health.RETRY_DELAY_MS n
      /\ attempts tr = S n
      /\ requests w' = (requests w + S n)%nat.
Proof.
  induction m as [|m IH]; intros retryCount w c w' tr Hm Hrun;
    rewrite checkDeploymentHealth_eq in Hrun;
    destruct (net w (requests w)) as [l r | l e].
  - injection Hrun as <- <- <-. exists O. cbn. repeat split; lia.
  - assert (Hlt : (retryCount <? Health.MAX_RETRIES) = false).
    { apply Z.ltb_ge. unfold Health.MAX_RETRIES in *. lia. }
    rewrite Hlt, andb_false_r in Hrun.
    injection Hrun as <- <- <-. exists O. cbn. repeat split; lia.
  - injection Hrun as <- <- <-. exists O. cbn. repeat split; lia.
  - destruct (Js.is_object_with_message e && (retryCount <? Health.MAX_RETRIES)).
    + destruct (Health.checkDeploymentHealth url config (retryCount + 1) (retry_world l w))
        as [[c1 w1] t1] eqn:Hrec.
      injection Hrun as <- <- <-.
      destruct (IH (retryCount + 1) _ _ _ _ ltac:(unfold Health.MAX_RETRIES in *; lia) Hrec)
        as (n & Hn & Htl & Hat & Hreq).
      exists (S n). cbn in Hreq |- *.
      rewrite Htl, Hat. repeat split; lia.
    + injection Hrun as <- <- <-. exists O. cbn. repeat split; lia.
Qed.

(** X1: whatever the network does, a run of the prober is one attempt
    followed by at most [MAX_RETRIES - retryCount] retries, each one a wait
    of 1000 ms and then an attempt: never more than four requests from
    [retryCount = 0], a single one from [retryCount >= 3], and no wait after
    the last attempt. *)
Theorem probe_timeline url config retryCount w :
  exists c w' tr n,
    Health.checkDeploymentHealth url config retryCount w = (c, w', tr)
    /\ (n <= Z.to_nat (Health.MAX_RETRIES - retryCount))%nat
    /\ timeline tr = Attempt :: retry_beats 1000 n
    /\ attempts tr = S n
    /\ requests w' = (requests w + S n)%nat.
Proof.
  destruct (Health.checkDeploymentHealth url config retryCount w)
    as [[c w'] tr] eqn:Hrun.
  destruct (probe_timeline_aux url config _ _ _ _ _ _ eq_refl Hrun) as (n & H).
  exists c, w', tr, n. split; [reflexivity | exact H].
Qed.

(** X2: a result is healthy exactly when the last request of the run got a
    response whose status is the expected one.  A run that ends on a
    transport failure is never healthy: its status is 503 and [healthy] is
    false, also when the expected status is 503. *)
Theorem healthy_only_from_response url config retryCount w res w' tr :
  Health.checkDeploymentHealth url config retryCount w = (Returned res, w', tr) ->
  (healthy res = true <->
     exists l r, final_fate w' = Reply l r
                 /\ expectedStatus config = Js.Num (status r))
  /\ (forall l e, final_fate w' = Failure l e ->
        hc_status res = 503
        /\ healthy res = false
        /\ error res = Some (Js.error_text e)).
Proof.
  intros Hrun.
  destruct (probe_run url config _ retryCount w eq_refl)
    as (res1 & w1 & tr1 & Hrun1 & _ & _ & Hres).
  rewrite Hrun in Hrun1. injection Hrun1 as <- <- <-.
  destruct (final_fate w') as [l r | l e]; subst res;
    unfold from_response, synthetic; cbn [healthy hc_status error].
  - split.
    + rewrite strict_eq_Num. split.
      * intros H. exists l, r. split; [reflexivity | exact H].
      * intros (l' & r' & Heq & H). injection Heq as _ <-. exact H.
    + intros l' e' H. discriminate.
  - split.
    + split; [discriminate | intros (l' & r' & H & _); discriminate].
    + intros l' e' H. injection H as _ <-. repeat split.
Qed.

Lemma healthy_only_from_response_witness :
  hc_status (synthetic 1700000003021 Samples.target Samples.refused) = 503
  /\ healthy (synthetic 1700000003021 Samples.target Samples.refused) = false
  /\ error (synthetic 1700000003021 Samples.target Samples.refused)
     = Some (Js.error_text Samples.refused).
Proof.
  refine (proj2 (healthy_only_from_response Samples.target
                   {| expectedStatus := Js.Num 503; timeoutMs := None;
                      checkIntervalMs := None |}
                   0 Samples.down _ _ _ _) 7 Samples.refused _).
  - vm_compute. reflexivity.
  - reflexivity.
Defined.

(* ===================================================================== *)
(** ** The monitor: further properties *)
(* ===================================================================== *)

(** X3: the log file is append-only and gets one line per processed
    result, in the order of the results; processing results touches neither
    the timer nor the count of pending probes. *)
Theorem log_append_only results :
  forall s,
    Monitor.logFile (Monitor.process results s)
      = (Monitor.logFile s ++ map Monitor.logMessage results)%list
    /\ List.length (Monitor.logFile (Monitor.process results s))
       = (List.length (Monitor.logFile s) + List.length results)%nat
    /\ Monitor.interval_armed (Monitor.process results s) = Monitor.interval_armed s
    /\ Monitor.in_flight (Monitor.process results s) = Monitor.in_flight s.
Proof.
  induction results as [|h results IH]; intros s.
  - cbn. rewrite app_nil_r. repeat split. lia.
  - change (Monitor.process (h :: results) s)
      with (Monitor.process results (Monitor.logHealthCheck h s)).
    destruct (IH (Monitor.logHealthCheck h s)) as (Hlog & Hlen & Harm & Hfl).
    split; [rewrite Hlog; cbn; rewrite <- app_assoc; reflexivity|].
    split; [rewrite Hlen; cbn; rewrite length_app; cbn; lia|].
    split; [rewrite Harm; reflexivity | rewrite Hfl; reflexivity].
Qed.

Lemma run_accounted evs :
  forall s0 s,
    Monitor.run evs s0 = Some s ->
    (List.length (Monitor.logFile s) + Monitor.in_flight s
     = List.length (Monitor.logFile s0) + Monitor.in_flight s0 + timer_fires evs)%nat.
Proof.
  induction evs as [|ev evs IH]; intros s0 s Hrun.
  - cbn in Hrun. injection Hrun as <-. cbn. lia.
  - cbn [Monitor.run] in Hrun.
    destruct (Monitor.dispatch ev s0) as [s1|] eqn:Hd; [|discriminate].
    apply IH in Hrun. rewrite Hrun. clear Hrun IH.
    destruct ev as [|w|]; unfold Monitor.dispatch in Hd.
    + destruct (Monitor.interval_armed s0); [|discriminate].
      injection Hd as <-. cbn. lia.
    + destruct (Monitor.in_flight s0) as [|n] eqn:Hn; [discriminate|].
      destruct (probe_run (Monitor.st_url s0) (Monitor.config s0) _ 0 w eq_refl)
        as (res & w' & tr & Hp & _).
      rewrite Hp in Hd. injection Hd as <-. cbn.
      rewrite length_app. cbn. lia.
    + injection Hd as <-. cbn. lia.
Qed.

(** X4: in a session, every probe that was started is either pending or has
    its line in the log file: the number of lines plus the number of pending
    probes is one (the initial probe) plus the number of timer ticks.  No
    result is lost and none is logged twice. *)
Theorem probes_accounted url config now evs s :
  Monitor.run evs (Monitor.setupHealthMonitoring url config now) = Some s ->
  (List.length (Monitor.logFile s) + Monitor.in_flight s = 1 + timer_fires evs)%nat.
Proof.
  intros Hrun. rewrite (run_accounted _ _ _ Hrun). reflexivity.
Qed.

Lemma probes_accounted_witness :
  (List.length
     (Monitor.logFile
        (Monitor.logHealthCheck Samples.good
           (Monitor.with_in_flight 1
              (Monitor.with_in_flight 2 Samples.session))))
   + 1 = 1 + 1)%nat.
Proof.
  exact (probes_accounted Samples.target Samples.cfg 1700000000000
           [Monitor.TimerFires; Monitor.ProbeSettles Samples.up] _ eq_refl).
Defined.

Lemma leading_level_step health lines level :
  leading level (Monitor.logMessage health :: lines)
  = if String.eqb (if healthy health then "INFO" else "ERROR") level
    then 1 + leading level lines else 0.
Proof. reflexivity. Qed.

Lemma logHealthCheck_trailing health s :
  Monitor.healthyStreak s = trailing "INFO" (Monitor.logFile s) ->
  Monitor.unhealthyStreak s = trailing "ERROR" (Monitor.logFile s) ->
  Monitor.healthyStreak (Monitor.logHealthCheck health s)
    = trailing "INFO" (Monitor.logFile (Monitor.logHealthCheck health s))
  /\ Monitor.unhealthyStreak (Monitor.logHealthCheck health s)
     = trailing "ERROR" (Monitor.logFile (Monitor.logHealthCheck health s)).
Proof.
  intros Hh Hu. unfold trailing in *.
  unfold Monitor.logHealthCheck, Monitor.update_streaks.
  cbn [Monitor.logFile Monitor.healthyStreak Monitor.unhealthyStreak].
  rewrite rev_app_distr. cbn [rev app].
  rewrite !leading_level_step.
  destruct (healthy health); cbn [fst snd String.eqb Ascii.eqb Bool.eqb andb].
  - rewrite Hh. split; [lia | reflexivity].
  - rewrite Hu. split; [reflexivity | lia].
Qed.

(** X5: in every state that a session can reach, [healthyStreak] is the
    number of [INFO] lines at the end of the log file and [unhealthyStreak]
    the number of [ERROR] lines at its end: the counters can be read off the
    file. *)
Theorem streaks_are_trailing s :
  Monitor.Reachable s ->
  Monitor.healthyStreak s = trailing "INFO" (Monitor.logFile s)
  /\ Monitor.unhealthyStreak s = trailing "ERROR" (Monitor.logFile s).
Proof.
  induction 1 as [url config now | health s Hs IH | ev s s' Hs IH Hd].
  - split; reflexivity.
  - destruct IH as [Hh Hu]. apply logHealthCheck_trailing; assumption.
  - destruct IH as [Hh Hu].
    destruct ev as [|w|]; unfold Monitor.dispatch in Hd.
    + destruct (Monitor.interval_armed s); [|discriminate].
      injection Hd as <-. split; assumption.
    + destruct (Monitor.in_flight s) as [|n]; [discriminate|].
      destruct (Health.checkDeploymentHealth (Monitor.st_url s) (Monitor.config s) 0 w)
        as [[[health|e|] w'] tr]; injection Hd as <-.
      * apply logHealthCheck_trailing; assumption.
      * split; assumption.
      * split; assumption.
    + injection Hd as <-. split; assumption.
Qed.

Lemma streaks_are_trailing_witness :
  Monitor.healthyStreak
    (Monitor.process [Samples.bad; Samples.good; Samples.good] Samples.session)
  = trailing "INFO"
      (Monitor.logFile
         (Monitor.process [Samples.bad; Samples.good; Samples.good] Samples.session))
  /\ Monitor.unhealthyStreak
       (Monitor.process [Samples.bad; Samples.good; Samples.good] Samples.session)
     = trailing "ERROR"
         (Monitor.logFile
            (Monitor.process [Samples.bad; Samples.good; Samples.good]
               Samples.session)).
Proof.
  apply (streaks_are_trailing
           (Monitor.process [Samples.bad; Samples.good; Samples.good] Samples.session)).
  repeat apply Monitor.reach_result. apply Monitor.reach_start.
Defined.

Lemma console_printed results :
  forall s,
    Monitor.console (Monitor.process results s)
    = (Monitor.console s ++ printed results s)%list.
Proof.
  induction results as [|h results IH]; intros s.
  - cbn. rewrite app_nil_r. reflexivity.
  - change (Monitor.process (h :: results) s)
      with (Monitor.process results (Monitor.logHealthCheck h s)).
    rewrite IH. cbn [printed]. rewrite app_assoc. reflexivity.
Qed.

Lemma count_app p l1 l2 :
  Monitor.count p (l1 ++ l2) = (Monitor.count p l1 + Monitor.count p l2)%nat.
Proof.
  unfold Monitor.count. rewrite filter_app, length_app. reflexivity.
Qed.

Lemma failure_run_counts results :
  forall s,
    0 <= Monitor.unhealthyStreak s ->
    Forall (fun h => healthy h = false) results ->
    Monitor.unhealthyStreak (Monitor.process results s)
      = Monitor.unhealthyStreak s + Z.of_nat (List.length results)
    /\ Monitor.count Monitor.is_failure_notice (printed results s)
       = List.length results
    /\ Z.of_nat (Monitor.count Monitor.is_alert (printed results s))
       = Z.max 0 (Monitor.unhealthyStreak s + Z.of_nat (List.length results) - 2)
         - Z.max 0 (Monitor.unhealthyStreak s - 2)
    /\ Monitor.count Monitor.is_success_notice (printed results s) = 0%nat.
Proof.
  induction results as [|h results IH]; intros s Hu Hall.
  - cbn. repeat split; lia.
  - inversion Hall as [|h' rs Hh Hrest]; subst.
    destruct (logHealthCheck_streaks h s) as [_ Hf].
    destruct (Hf Hh) as [Hus _].
    change (Monitor.process (h :: results) s)
      with (Monitor.process results (Monitor.logHealthCheck h s)).
    destruct (IH (Monitor.logHealthCheck h s)) as (Hs & Hfail & Halert & Hsucc);
      [lia | exact Hrest |].
    cbn [printed]. rewrite !count_app, Hfail, Hs, Hus, Hsucc.
    rewrite Nat2Z.inj_add, Halert, Hus.
    unfold Monitor.log_to_console. rewrite Hh.
    cbn [List.length].
    destruct (3 <=? Monitor.unhealthyStreak s + 1) eqn:H3;
      [apply Z.leb_le in H3 | apply Z.leb_gt in H3];
      console_counts; repeat split; lia.
Qed.

(** X6: a run of [n] unhealthy results that starts with [unhealthyStreak]
    at 0 prints [n] failure notices and an alert for each result from the
    third on, [max 0 (n - 2)] alerts in all, and no success notice. *)
Theorem alerts_in_failure_run results s :
  Monitor.unhealthyStreak s = 0 ->
  Forall (fun h => healthy h = false) results ->
  Monitor.console (Monitor.process results s)
    = (Monitor.console s ++ printed results s)%list
  /\ Monitor.count Monitor.is_failure_notice (printed results s)
     = List.length results
  /\ Z.of_nat (Monitor.count Monitor.is_alert (printed results s))
     = Z.max 0 (Z.of_nat (List.length results) - 2)
  /\ Monitor.count Monitor.is_success_notice (printed results s) = 0%nat.
Proof.
  intros Hu Hall.
  destruct (failure_run_counts results s ltac:(lia) Hall)
    as (_ & Hfail & Halert & Hsucc).
  split; [apply console_printed|].
  split; [exact Hfail|].
  split; [rewrite Halert, Hu; lia | exact Hsucc].
Qed.

Lemma alerts_in_failure_run_witness :
  Monitor.console
    (Monitor.process [Samples.bad; Samples.bad; Samples.bad; Samples.bad]
       Samples.session)
    = (Monitor.console Samples.session
       ++ printed [Samples.bad; Samples.bad; Samples.bad; Samples.bad]
            Samples.session)%list
  /\ Monitor.count Monitor.is_failure_notice
       (printed [Samples.bad; Samples.bad; Samples.bad; Samples.bad] Samples.session)
     = 4%nat
  /\ Z.of_nat
       (Monitor.count Monitor.is_alert
          (printed [Samples.bad; Samples.bad; Samples.bad; Samples.bad]
             Samples.session))
     = Z.max 0 (4 - 2)
  /\ Monitor.count Monitor.is_success_notice
       (printed [Samples.bad; Samples.bad; Samples.bad; Samples.bad] Samples.session)
     = 0%nat.
Proof.
  apply (alerts_in_failure_run
           [Samples.bad; Samples.bad; Samples.bad; Samples.bad] Samples.session).
  - reflexivity.
  - repeat constructor.
Defined.

Lemma notices_upto_step k :
  1 <= k ->
  ((if 1 <=? k then 1 else 0) + k / 5)
  - ((if 1 <=? k - 1 then 1 else 0) + (k - 1) / 5)
  = if k =? 1 then 1 else if Z.rem k 5 =? 0 then 1 else 0.
Proof.
  intros Hk.
  destruct (Z.leb_spec 1 k); [|lia].
  destruct (Z.leb_spec 1 (k - 1)); destruct (Z.eqb_spec k 1); try lia.
  - destruct (Z.eqb_spec (Z.rem k 5) 0) as [Hr|Hr];
      Z.to_euclidean_division_equations; lia.
  - subst k. reflexivity.
Qed.

Lemma healthy_run_counts results :
  forall s,
    0 <= Monitor.healthyStreak s ->
    Forall (fun h => healthy h = true) results ->
    Monitor.healthyStreak (Monitor.process results s)
      = Monitor.healthyStreak s + Z.of_nat (List.length results)
    /\ Z.of_nat (Monitor.count Monitor.is_success_notice (printed results s))
       = ((if 1 <=? Monitor.healthyStreak s + Z.of_nat (List.length results)
           then 1 else 0)
          + (Monitor.healthyStreak s + Z.of_nat (List.length results)) / 5)
         - ((if 1 <=? Monitor.healthyStreak s then 1 else 0)
            + Monitor.healthyStreak s / 5)
    /\ Monitor.count Monitor.on_stderr (printed results s) = 0%nat.
Proof.
  induction results as [|h results IH]; intros s Hhs Hall.
  - cbn [Monitor.process fold_left printed List.length Monitor.count filter].
    change (Z.of_nat 0) with 0. rewrite Z.add_0_r. repeat split; lia.
  - inversion Hall as [|h' rs Hh Hrest]; subst.
    destruct (logHealthCheck_streaks h s) as [Ht _].
    destruct (Ht Hh) as [Hs1 _].
    change (Monitor.process (h :: results) s)
      with (Monitor.process results (Monitor.logHealthCheck h s)).
    destruct (IH (Monitor.logHealthCheck h s)) as (Hs & Hsucc & Herr);
      [lia | exact Hrest |].
    cbn [printed]. rewrite !count_app, Nat2Z.inj_add, Hs, Hsucc, Herr, Hs1.
    pose proof (notices_upto_step (Monitor.healthyStreak s + 1) ltac:(lia)) as Hstep.
    replace (Monitor.healthyStreak s + 1 - 1) with (Monitor.healthyStreak s) in Hstep by lia.
    cbn [List.length]. rewrite Nat2Z.inj_succ.
    replace (Monitor.healthyStreak s + 1 + Z.of_nat (List.length results))
      with (Monitor.healthyStreak s + Z.succ (Z.of_nat (List.length results))) by lia.
    unfold Monitor.log_to_console. rewrite Hh.
    destruct (Monitor.healthyStreak s + 1 =? 1);
      [|destruct (Z.rem (Monitor.healthyStreak s + 1) 5 =? 0)];
      console_counts; repeat split; lia.
Qed.

(** X7: a run of [n >= 1] healthy results that starts with [healthyStreak]
    at 0 prints [1 + n / 5] success notices, the one of the first result and
    one at every fifth, and nothing on the error stream. *)
Theorem notices_in_healthy_run results s :
  Monitor.healthyStreak s = 0 ->
  results <> [] ->
  Forall (fun h => healthy h = true) results ->
  Monitor.console (Monitor.process results s)
    = (Monitor.console s ++ printed results s)%list
  /\ Z.of_nat (Monitor.count Monitor.is_success_notice (printed results s))
     = 1 + Z.of_nat (List.length results) / 5
  /\ Monitor.count Monitor.on_stderr (printed results s) = 0%nat.
Proof.
  intros Hhs Hne Hall.
  destruct (healthy_run_counts results s ltac:(lia) Hall) as (_ & Hsucc & Herr).
  split; [apply console_printed|].
  split; [|exact Herr].
  rewrite Hsucc, Hhs.
  assert (1 <= Z.of_nat (List.length results)).
  { destruct results; [congruence | cbn [List.length]; lia]. }
  rewrite Z.add_0_l.
  destruct (Z.leb_spec 1 (Z.of_nat (List.length results))); [|lia].
  change (0 / 5) with 0. change (1 <=? 0) with false. cbv iota. lia.
Qed.

Lemma notices_in_healthy_run_witness :
  Z.of_nat
    (Monitor.count Monitor.is_success_notice
       (printed (repeat Samples.good 11) Samples.session))
  = 1 + Z.of_nat (List.length (repeat Samples.good 11)) / 5.
Proof.
  refine (proj1 (proj2 (notices_in_healthy_run (repeat Samples.good 11)
                          Samples.session _ _ _))).
  - reflexivity.
  - discriminate.
  - repeat constructor.
Defined.

(* ===================================================================== *)
(** ** The outer API call: further properties *)
(* ===================================================================== *)

Lemma makeVercelApiCall_no_token url method retryCount w :
  token_set w = false ->
  Vercel.makeVercelApiCall url method retryCount w
  = (Threw (Js.new_Error Vercel.token_missing), w, []).
Proof.
  intros Htok. unfold Vercel.makeVercelApiCall, Vercel.depth.
  cbn [Vercel.makeVercelApiCall_fuel].
  unfold bind at 1. unfold getenv_VERCEL_TOKEN at 1.
  unfold token_set in Htok. rewrite Htok. reflexivity.
Qed.

Lemma makeVercelApiCall_resolved url method retryCount w l r :
  token_set w = true ->
  net w (requests w) = Reply l r ->
  default_validateStatus (status r) = true ->
  Vercel.makeVercelApiCall url method retryCount w
  = (Returned (data r), issued (elapse l w), [api_request url method]).
Proof.
  intros Htok Hnet Hok. unfold Vercel.makeVercelApiCall, Vercel.depth.
  cbn [Vercel.makeVercelApiCall_fuel].
  unfold bind at 1. unfold getenv_VERCEL_TOKEN at 1.
  unfold token_set in Htok. rewrite Htok. cbn [negb].
  unfold try_catch, bind, axios, ret; cbn.
  rewrite Hnet, Hok. reflexivity.
Qed.

Lemma rejection_none fate :
  rejection default_validateStatus fate = None ->
  exists l r, fate = Reply l r /\ default_validateStatus (status r) = true.
Proof.
  destruct fate as [l r | l e]; cbn; [|discriminate].
  destruct (default_validateStatus (status r)) eqn:H; [|discriminate].
  intros _. exists l, r. split; [reflexivity | exact H].
Qed.

Lemma api_run url method :
  forall m retryCount w,
    Z.to_nat (Vercel.MAX_RETRIES - retryCount) = m ->
    exists c w' tr,
      Vercel.makeVercelApiCall url method retryCount w = (c, w', tr)
      /\ c <> Diverged
      /\ net w' = net w
      /\ VERCEL_TOKEN w' = VERCEL_TOKEN w
      /\ (attempts tr <= S m)%nat
      /\ requests w' = (requests w + attempts tr)%nat
      /\ (forall d, c = Returned d ->
            exists l r, final_fate w' = Reply l r
                        /\ default_validateStatus (status r) = true
                        /\ d = data r)
      /\ (forall e, c = Threw e -> exists msg, e = Js.new_Error msg).
Proof.
  induction m as [|m IH]; intros retryCount w Hm;
    (destruct (token_set w) eqn:Htok;
     [|rewrite (makeVercelApiCall_no_token _ _ _ _ Htok);
       eexists _, _, _; split; [reflexivity|];
       cbn; repeat split; try discriminate; try lia;
       intros e He; injection He as <-; eexists; reflexivity]);
    (destruct (rejection default_validateStatus (net w (requests w)))
       as [[l e]|] eqn:Hrej;
     [|destruct (rejection_none _ Hrej) as (l & r & Hnet & Hok);
       rewrite (makeVercelApiCall_resolved _ _ _ _ _ _ Htok Hnet Hok);
       eexists _, _, _; split; [reflexivity|];
       cbn; repeat split; try discriminate; try lia;
       intros d Hd; injection Hd as <-; exists l, r;
       unfold final_fate; cbn; rewrite Hnet; repeat split; assumption]);
    rewrite (makeVercelApiCall_caught _ _ _ _ _ _ Htok Hrej).
  - assert (Hno : Vercel.retries e retryCount = false).
    { destruct (Vercel.retries e retryCount) eqn:Hr; [|reflexivity].
      apply retries_below in Hr. apply Z.ltb_lt in Hr.
      unfold Vercel.MAX_RETRIES in *. lia. }
    rewrite Hno. eexists _, _, _. split; [reflexivity|].
    cbn. repeat split; try discriminate; try lia.
    intros e' He. injection He as <-. eexists. reflexivity.
  - destruct (Vercel.retries e retryCount) eqn:Hr.
    + apply retries_below in Hr. apply Z.ltb_lt in Hr.
      destruct (IH (retryCount + 1) (api_retry_world l w))
        as (c & w' & tr & Hrun & Hdiv & Hnet' & Htok' & Hat & Hreq & Hret & Hthr).
      { unfold Vercel.MAX_RETRIES in *. lia. }
      rewrite Hrun. eexists _, _, _. split; [reflexivity|].
      split; [exact Hdiv|].
      split; [rewrite Hnet'; reflexivity|].
      split; [rewrite Htok'; reflexivity|].
      cbn in Hreq |- *.
      split; [lia|]. split; [lia|].
      split; assumption.
    + eexists _, _, _. split; [reflexivity|].
      cbn. repeat split; try discriminate; try lia.
      intros e' He. injection He as <-. eexists. reflexivity.
Qed.

(** X8: [makeVercelApiCall] always settles, after at most four requests
    from [retryCount = 0]; it resolves only with the body of a response whose
    status is in the 2xx range; whatever goes wrong, what it throws is an
    [Error] instance; and without [VERCEL_TOKEN] it throws before any request
    is issued. *)
Theorem api_call_outcome url method retryCount w :
  exists c w' tr,
    Vercel.makeVercelApiCall url method retryCount w = (c, w', tr)
    /\ c <> Diverged
    /\ (attempts tr <= S (Z.to_nat (Vercel.MAX_RETRIES - retryCount)))%nat
    /\ requests w' = (requests w + attempts tr)%nat
    /\ (forall d, c = Returned d ->
          exists l r, final_fate w' = Reply l r
                      /\ 200 <= status r < 300
                      /\ d = data r)
    /\ (forall e, c = Threw e -> exists msg, e = Js.new_Error msg)
    /\ (token_set w = false ->
          c = Threw (Js.new_Error Vercel.token_missing) /\ tr = [] /\ w' = w).
Proof.
  destruct (api_run url method _ retryCount w eq_refl)
    as (c & w' & tr & Hrun & Hdiv & _ & _ & Hat & Hreq & Hret & Hthr).
  exists c, w', tr. split; [exact Hrun|].
  split; [exact Hdiv|]. split; [exact Hat|]. split; [exact Hreq|].
  split.
  { intros d Hd. destruct (Hret d Hd) as (l & r & Hf & Hok & Hdata).
    exists l, r. split; [exact Hf|]. split; [|exact Hdata].
    unfold default_validateStatus in Hok.
    apply andb_true_iff in Hok as [H1 H2].
    apply Z.leb_le in H1. apply Z.ltb_lt in H2. lia. }
  split; [exact Hthr|].
  intros Htok. rewrite (makeVercelApiCall_no_token _ _ _ _ Htok) in Hrun.
  injection Hrun as <- <- <-. repeat split.
Qed.

Lemma status_error_rejected l r :
  default_validateStatus (status r) = false ->
  rejection default_validateStatus (Reply l r) = Some (l, axios_status_error r).
Proof. intros H. cbn. rewrite H. reflexivity. Qed.

Lemma status_error_retries r retryCount :
  Vercel.retries (axios_status_error r) retryCount
  = (retryCount <? Vercel.MAX_RETRIES) && (500 <=? status r).
Proof.
  unfold Vercel.retries, Js.is_object_with_response, Vercel.code_is_ECONNRESET.
  cbn.
  destruct ((400 <=? status r) && (status r <? 500)); cbn;
    rewrite orb_false_r; reflexivity.
Qed.

Lemma string_truthy_spec s :
  Js.string_truthy s = true <-> s <> "".
Proof.
  destruct s; cbn; split; intros H; congruence.
Qed.

(** X9: against a service that answers every request with a status of 500
    or more, [makeVercelApiCall] makes four requests with a wait of 2000 ms
    between two of them, and then throws the error built from the last
    response. *)
Theorem api_persistent_server_error url method w :
  token_set w = true ->
  (forall k, (requests w <= k)%nat ->
     exists l r, net w k = Reply l r /\ 500 <= status r) ->
  exists w' tr l r,
    net w (requests w + 3)%nat = Reply l r
    /\ Vercel.makeVercelApiCall url method 0 w
       = (Threw (Js.new_Error (Vercel.final_message (axios_status_error r))), w', tr)
    /\ timeline tr = [Attempt; Delay 2000; Attempt; Delay 2000;
                      Attempt; Delay 2000; Attempt]
    /\ requests w' = (requests w + 4)%nat.
Proof.
  intros Htok Hall.
  assert (Hrej : forall l r, 500 <= status r ->
            rejection default_validateStatus (Reply l r)
            = Some (l, axios_status_error r)).
  { intros l r Hs. apply status_error_rejected.
    unfold default_validateStatus. apply andb_false_iff. right.
    apply Z.ltb_ge. lia. }
  assert (Hretry : forall r rc, 500 <= status r ->
            Vercel.retries (axios_status_error r) rc = (rc <? Vercel.MAX_RETRIES)).
  { intros r rc Hs. rewrite status_error_retries.
    apply Z.leb_le in Hs. rewrite Hs. apply andb_true_r. }
  destruct (Hall (requests w)) as (l0 & r0 & H0 & S0); [lia|].
  destruct (Hall (S (requests w))) as (l1 & r1 & H1 & S1); [lia|].
  destruct (Hall (S (S (requests w)))) as (l2 & r2 & H2 & S2); [lia|].
  destruct (Hall (S (S (S (requests w))))) as (l3 & r3 & H3 & S3); [lia|].
  eexists _, _, l3, r3.
  split; [rewrite <- H3; f_equal; lia|].
  rewrite (makeVercelApiCall_caught url method 0 w l0 (axios_status_error r0) Htok)
    by (rewrite H0; apply Hrej; exact S0).
  rewrite (Hretry _ _ S0). cbn [Z.ltb Z.compare Vercel.MAX_RETRIES Z.add].
  rewrite (makeVercelApiCall_caught url method 1 (api_retry_world l0 w) l1
             (axios_status_error r1) Htok)
    by (cbn [api_retry_world elapse issued net requests];
        rewrite H1; apply Hrej; exact S1).
  rewrite (Hretry _ _ S1).
  cbn [Z.ltb Z.compare Vercel.MAX_RETRIES Z.add Pos.compare Pos.compare_cont
       Pos.add Pos.succ].
  rewrite (makeVercelApiCall_caught url method 2
             (api_retry_world l1 (api_retry_world l0 w)) l2
             (axios_status_error r2) Htok)
    by (cbn [api_retry_world elapse issued net requests];
        rewrite H2; apply Hrej; exact S2).
  rewrite (Hretry _ _ S2).
  cbn [Z.ltb Z.compare Vercel.MAX_RETRIES Z.add Pos.compare Pos.compare_cont
       Pos.add Pos.succ].
  rewrite (makeVercelApiCall_caught url method 3
             (api_retry_world l2 (api_retry_world l1 (api_retry_world l0 w))) l3
             (axios_status_error r3) Htok)
    by (cbn [api_retry_world elapse issued net requests];
        rewrite H3; apply Hrej; exact S3).
  rewrite (Hretry _ _ S3).
  cbn [Z.ltb Z.compare Vercel.MAX_RETRIES Z.add Pos.compare Pos.compare_cont
       Pos.add Pos.succ].
  split; [reflexivity|].
  split; [reflexivity|].
  cbn. lia.
Qed.

Lemma api_persistent_server_error_witness :
  exists w' tr l r,
    net Samples.broken (requests Samples.broken + 3)%nat = Reply l r
    /\ Vercel.makeVercelApiCall Samples.target Vercel.post 0 Samples.broken
       = (Threw (Js.new_Error (Vercel.final_message (axios_status_error r))), w', tr)
    /\ timeline tr = [Attempt; Delay 2000; Attempt; Delay 2000;
                      Attempt; Delay 2000; Attempt]
    /\ requests w' = (requests Samples.broken + 4)%nat.
Proof.
  apply (api_persistent_server_error Samples.target Vercel.post Samples.broken).
  - reflexivity.
  - intros k _. exists 15, Samples.err500. split; [reflexivity | cbn; lia].
Defined.

(** X10: a response outside the 2xx range and below 500 is not retried: one
    request, then an [Error].  Its message is
    ["Vercel API error (<status>): <m>"] where [m] is the message of the API
    error in the body when there is one, else the status text; with neither,
    it is the message of the HTTP client. *)
Theorem api_client_error_not_retried url method retryCount w l r :
  token_set w = true ->
  net w (requests w) = Reply l r ->
  default_validateStatus (status r) = false ->
  status r < 500 ->
  Vercel.makeVercelApiCall url method retryCount w
  = (Threw (Js.new_Error (Vercel.final_message (axios_status_error r))),
     issued (elapse l w), [api_request url method])
  /\ (forall m, data_error_message r = Some m -> m <> "" -> status r <> 0 ->
        Vercel.final_message (axios_status_error r)
        = "Vercel API error (" ++ Js.string_of_Z (status r) ++ "): " ++ m)
  /\ (data_error_message r = None \/ data_error_message r = Some "" ->
      statusText r <> "" -> status r <> 0 ->
        Vercel.final_message (axios_status_error r)
        = "Vercel API error (" ++ Js.string_of_Z (status r) ++ "): " ++ statusText r)
  /\ (data_error_message r = None \/ data_error_message r = Some "" ->
      statusText r = "" ->
        Vercel.final_message (axios_status_error r)
        = "Request failed with status code " ++ Js.string_of_Z (status r)).
Proof.
  intros Htok Hnet Hbad Hlt.
  split.
  { rewrite (makeVercelApiCall_caught url method retryCount w l
               (axios_status_error r) Htok)
      by (rewrite Hnet; apply status_error_rejected; exact Hbad).
    rewrite status_error_retries.
    replace (500 <=? status r) with false by (symmetry; apply Z.leb_gt; lia).
    rewrite andb_false_r. reflexivity. }
  unfold Vercel.final_message, Js.is_object_with_response, axios_status_error.
  cbn [Js.truthy Js.typeof_is_object Js.typeof Js.has_response Js.response andb
       Vercel.apiError Vercel.status_or_network_error Js.res_status
       Js.res_statusText Js.res_data_error_message].
  split.
  { intros m Hm Hne Hs. rewrite Hm.
    apply string_truthy_spec in Hne. rewrite Hne.
    apply Z.eqb_neq in Hs. rewrite Hs. reflexivity. }
  split.
  { intros Hm Hne Hs.
    apply string_truthy_spec in Hne. apply Z.eqb_neq in Hs.
    destruct Hm as [-> | ->]; cbn [Js.string_truthy]; rewrite Hne, Hs; reflexivity. }
  intros Hm Hst.
  destruct Hm as [-> | ->]; rewrite Hst; reflexivity.
Qed.

Lemma api_client_error_not_retried_witness :
  Vercel.makeVercelApiCall Samples.target Vercel.get 0
    (Samples.world_of
       (fun _ => Reply 9 {| status := 404; statusText := "Not Found"; data := "{}";
                            data_error_message := Some "Deployment not found" |}))
  = (Threw (Js.new_Error "Vercel API error (404): Deployment not found"),
     issued (elapse 9
       (Samples.world_of
          (fun _ => Reply 9 {| status := 404; statusText := "Not Found"; data := "{}";
                               data_error_message := Some "Deployment not found" |}))),
     [api_request Samples.target Vercel.get]).
Proof.
  exact (proj1 (api_client_error_not_retried Samples.target Vercel.get 0
                  (Samples.world_of
                     (fun _ => Reply 9 {| status := 404; statusText := "Not Found";
                                          data := "{}";
                                          data_error_message :=
                                            Some "Deployment not found" |}))
                  9 _ eq_refl eq_refl eq_refl eq_refl)).
Defined.

(* ===================================================================== *)
(** ** The callers of the API call *)
(* ===================================================================== *)

Lemma prefixed_new_Error base msg :
  Api.prefixed base (Js.new_Error msg) = base ++ ": " ++ msg.
Proof. reflexivity. Qed.

Lemma attempts_app t1 t2 :
  attempts (t1 ++ t2) = (attempts t1 + attempts t2)%nat.
Proof.
  induction t1 as [|ev t1 IH]; [reflexivity|].
  destruct ev; cbn; rewrite IH; reflexivity.
Qed.

(** X11: [setVercelEnvironment] with no variables to set (the section is
    missing or empty) returns at once without a request, with or without
    [VERCEL_TOKEN]; otherwise it makes at most four requests and either
    returns or throws an [Error] whose message starts with
    ["Failed to set environment variables: "], which without [VERCEL_TOKEN]
    happens before any request. *)
Theorem setVercelEnvironment_outcome config w :
  exists c w' tr,
    Api.setVercelEnvironment config w = (c, w', tr)
    /\ (attempts tr <= 4)%nat
    /\ (c = Returned tt
        \/ exists msg,
             c = Threw (Js.new_Error ("Failed to set environment variables: " ++ msg)))
    /\ (Api.nothing_to_set config = true ->
          c = Returned tt /\ attempts tr = 0%nat /\ w' = w)
    /\ (Api.nothing_to_set config = false -> token_set w = false ->
          c = Threw (Js.new_Error ("Failed to set environment variables: "
                                     ++ Vercel.token_missing))
          /\ attempts tr = 0%nat).
Proof.
  unfold Api.setVercelEnvironment.
  destruct (Api.nothing_to_set config) eqn:Hnone.
  - eexists _, _, _. split; [reflexivity|]. count_attempts_with attempts_app.
    split; [lia|]. split; [left; reflexivity|].
    split; [repeat split | discriminate].
  - destruct (api_run (Api.env_url config) Vercel.patch _ 0 w eq_refl)
      as (c & w' & tr & Hrun & Hdiv & _ & _ & Hat & _ & _ & Hthr).
    assert (Hat4 : (attempts tr <= 4)%nat) by exact Hat. clear Hat.
    unfold bind, try_catch, console_log, emit, ret, throw.
    rewrite Hrun.
    destruct c as [d | e |]; [| |congruence].
    + eexists _, _, _. split; [reflexivity|].
      count_attempts_with attempts_app.
      split; [lia|]. split; [left; reflexivity|].
      split; [discriminate|].
      intros _ Htok.
      rewrite (makeVercelApiCall_no_token _ _ _ _ Htok) in Hrun. discriminate.
    + destruct (Hthr e eq_refl) as (msg & ->).
      eexists _, _, _. split; [reflexivity|].
      count_attempts_with attempts_app.
      split; [lia|]. split; [right; exists msg; reflexivity|].
      split; [discriminate|].
      intros _ Htok.
      rewrite (makeVercelApiCall_no_token _ _ _ _ Htok) in Hrun.
      injection Hrun as <- _ <-. split; reflexivity.
Qed.

(** X12: [deployToVercel] returns a URL only when the last request got a
    2xx response whose body holds that URL, not empty; every failure is
    thrown as an [Error] whose message starts with
    ["Failed to deploy to Vercel: "], the 2xx response without a URL
    included, which is not retried. *)
Theorem deployToVercel_outcome read projectId w :
  exists c w' tr,
    Api.deployToVercel read projectId w = (c, w', tr)
    /\ c <> Diverged
    /\ (attempts tr <= 4)%nat
    /\ (forall u, c = Returned u ->
          u <> ""
          /\ exists l r, final_fate w' = Reply l r
                         /\ 200 <= status r < 300
                         /\ read (data r) "url" = Api.Found u)
    /\ (forall e, c = Threw e ->
          exists msg, e = Js.new_Error ("Failed to deploy to Vercel: " ++ msg))
    /\ (forall l r,
          token_set w = true ->
          net w (requests w) = Reply l r ->
          default_validateStatus (status r) = true ->
          read (data r) "url" = Api.Missing \/ read (data r) "url" = Api.Found "" ->
          c = Threw (Js.new_Error ("Failed to deploy to Vercel: " ++ Api.no_url))
          /\ attempts tr = 1%nat).
Proof.
  destruct (api_call_outcome Api.deployments_url Vercel.post 0 w)
    as (c & w' & tr & Hrun & Hdiv & Hat & _ & Hret & Hthr & _).
  assert (Hat4 : (attempts tr <= 4)%nat) by exact Hat. clear Hat.
  unfold Api.deployToVercel, bind, try_catch, console_log, emit, ret, throw.
  rewrite Hrun.
  destruct c as [d | e |]; [| |congruence].
  - destruct (Hret d eq_refl) as (l & r & Hfate & Hok & ->).
    assert (Hfirst : forall l0 r0,
               token_set w = true -> net w (requests w) = Reply l0 r0 ->
               default_validateStatus (status r0) = true ->
               r0 = r /\ attempts tr = 1%nat).
    { intros l0 r0 Htok Hnet Hok0.
      rewrite (makeVercelApiCall_resolved _ _ _ _ _ _ Htok Hnet Hok0) in Hrun.
      injection Hrun as Hd <- <-.
      unfold final_fate in Hfate. cbn in Hfate. rewrite Hnet in Hfate.
      injection Hfate as _ ->. split; reflexivity. }
    destruct (read (data r) "url") as [u | | message] eqn:Hread.
    + destruct (Js.string_truthy u) eqn:Hu; cbn [negb].
      * eexists _, _, _. split; [reflexivity|].
        split; [discriminate|].
        count_attempts_with attempts_app.
        split; [lia|].
        split.
        { intros u' Hu'. injection Hu' as <-.
          split; [apply string_truthy_spec; exact Hu|].
          exists l, r. split; [exact Hfate|]. split; [exact Hok | exact Hread]. }
        split; [intros e He; discriminate|].
        intros l0 r0 Htok Hnet Hok0 Hm.
        destruct (Hfirst l0 r0 Htok Hnet Hok0) as [-> _].
        rewrite Hread in Hm. destruct Hm as [Hm | Hm]; [discriminate|].
        injection Hm as ->. discriminate.
      * eexists _, _, _. split; [reflexivity|].
        split; [discriminate|].
        count_attempts_with attempts_app.
        split; [lia|].
        split; [intros u' Hu'; discriminate|].
        split.
        { intros e He. injection He as <-. eexists. reflexivity. }
        intros l0 r0 Htok Hnet Hok0 _.
        destruct (Hfirst l0 r0 Htok Hnet Hok0) as [_ Hone].
        split; [reflexivity | lia].
    + eexists _, _, _. split; [reflexivity|].
      split; [discriminate|].
      count_attempts_with attempts_app.
      split; [lia|].
      split; [intros u' Hu'; discriminate|].
      split.
      { intros e He. injection He as <-. eexists. reflexivity. }
      intros l0 r0 Htok Hnet Hok0 _.
      destruct (Hfirst l0 r0 Htok Hnet Hok0) as [_ Hone].
      split; [reflexivity | lia].
    + eexists _, _, _. split; [reflexivity|].
      split; [discriminate|].
      count_attempts_with attempts_app.
      split; [lia|].
      split; [intros u' Hu'; discriminate|].
      split.
      { intros e He. injection He as <-. eexists. reflexivity. }
      intros l0 r0 Htok Hnet Hok0 Hm.
      destruct (Hfirst l0 r0 Htok Hnet Hok0) as [-> _].
      rewrite Hread in Hm. destruct Hm; discriminate.
  - destruct (Hthr e eq_refl) as (msg & ->).
    eexists _, _, _. split; [reflexivity|].
    split; [discriminate|].
    count_attempts_with attempts_app.
    split; [lia|].
    split; [intros u' Hu'; discriminate|].
    split.
    { intros e He. injection He as <-. eexists. reflexivity. }
    intros l0 r0 Htok Hnet Hok0 _.
    rewrite (makeVercelApiCall_resolved _ _ _ _ _ _ Htok Hnet Hok0) in Hrun.
    discriminate.
Qed.

Lemma validateStatus_2xx s :
  default_validateStatus s = true <-> 200 <= s < 300.
Proof.
  unfold default_validateStatus.
  rewrite andb_true_iff, Z.leb_le, Z.ltb_lt. reflexivity.
Qed.

(** With the token set, the outcome of [makeVercelApiCall] is decided by
    the fate of its last request. *)
Lemma api_settles url method :
  forall m retryCount w,
    Z.to_nat (Vercel.MAX_RETRIES - retryCount) = m ->
    token_set w = true ->
    exists c w' tr,
      Vercel.makeVercelApiCall url method retryCount w = (c, w', tr)
      /\ match rejection default_validateStatus (final_fate w') with
         | None => exists l r, final_fate w' = Reply l r /\ c = Returned (data r)
         | Some (l, e) => c = Threw (Js.new_Error (Vercel.final_message e))
         end.
Proof.
  assert (Hlast : forall l w, final_fate (issued (elapse l w)) = net w (requests w))
    by reflexivity.
  induction m as [|m IH]; intros retryCount w Hm Htok;
    (destruct (rejection default_validateStatus (net w (requests w)))
       as [[l e]|] eqn:Hrej;
     [|destruct (rejection_none _ Hrej) as (l & r & Hnet & Hok);
       rewrite (makeVercelApiCall_resolved _ _ _ _ _ _ Htok Hnet Hok);
       eexists _, _, _; split; [reflexivity|];
       rewrite Hlast, Hrej; exists l, r; split; [exact Hnet | reflexivity]]);
    rewrite (makeVercelApiCall_caught _ _ _ _ _ _ Htok Hrej).
  - assert (Hno : Vercel.retries e retryCount = false).
    { destruct (Vercel.retries e retryCount) eqn:Hr; [|reflexivity].
      apply retries_below in Hr. apply Z.ltb_lt in Hr.
      unfold Vercel.MAX_RETRIES in *. lia. }
    rewrite Hno. eexists _, _, _. split; [reflexivity|].
    rewrite Hlast, Hrej. reflexivity.
  - destruct (Vercel.retries e retryCount) eqn:Hr.
    + apply retries_below in Hr. apply Z.ltb_lt in Hr.
      destruct (IH (retryCount + 1) (api_retry_world l w)) as (c & w' & tr & Hrun & Hfate).
      { unfold Vercel.MAX_RETRIES in *. lia. }
      { exact Htok. }
      rewrite Hrun. eexists _, _, _. split; [reflexivity | exact Hfate].
    + eexists _, _, _. split; [reflexivity|].
      rewrite Hlast, Hrej. reflexivity.
Qed.

(** X13: with [VERCEL_TOKEN] set, when the last request of
    [getDeploymentStatus] gets a 2xx response the function returns the state
    held in the body, or ["unknown"] when the body has no state or an empty
    one (and throws the prefixed [TypeError] when the body is [null]); when
    the first request gets it, that is the only request.  It never returns an
    empty status, it returns only after a 2xx response, and every failure is
    thrown as an [Error] whose message starts with
    ["Failed to get deployment status: "]. *)
Theorem getDeploymentStatus_outcome read deploymentId w :
  exists c w' tr,
    Api.getDeploymentStatus read deploymentId w = (c, w', tr)
    /\ c <> Diverged
    /\ (attempts tr <= 4)%nat
    /\ (token_set w = true ->
        forall l r,
          final_fate w' = Reply l r ->
          200 <= status r < 300 ->
          match read (data r) "state" with
          | Api.Found st =>
              c = Returned (if Js.string_truthy st then st else "unknown")
          | Api.Missing => c = Returned "unknown"
          | Api.Fault message =>
              c = Threw (Js.new_Error
                           ("Failed to get deployment status: " ++ message))
          end)
    /\ (token_set w = true ->
        forall l r,
          net w (requests w) = Reply l r ->
          200 <= status r < 300 ->
          w' = issued (elapse l w) /\ attempts tr = 1%nat)
    /\ (forall st, c = Returned st ->
          st <> ""
          /\ exists l r,
               final_fate w' = Reply l r
               /\ 200 <= status r < 300
               /\ (read (data r) "state" = Api.Found st
                   \/ (st = "unknown"
                       /\ (read (data r) "state" = Api.Missing
                           \/ read (data r) "state" = Api.Found ""))))
    /\ (forall e, c = Threw e ->
          exists msg,
            e = Js.new_Error ("Failed to get deployment status: " ++ msg)).
Proof.
  destruct (api_call_outcome (Api.deployments_url ++ "/" ++ deploymentId)
              Vercel.get 0 w)
    as (c & w' & tr & Hrun & Hdiv & Hat & _ & Hret & Hthr & _).
  assert (Hat4 : (attempts tr <= 4)%nat) by exact Hat. clear Hat.
  assert (Hset : token_set w = true ->
                 forall l r, final_fate w' = Reply l r ->
                             200 <= status r < 300 -> c = Returned (data r)).
  { intros Htok l r Hfate Hok.
    destruct (api_settles (Api.deployments_url ++ "/" ++ deploymentId)
                Vercel.get _ 0 w eq_refl Htok)
      as (c2 & w2 & tr2 & Hrun2 & Hfate2).
    rewrite Hrun in Hrun2. injection Hrun2 as <- <- <-.
    rewrite Hfate in Hfate2. cbn [rejection] in Hfate2.
    apply validateStatus_2xx in Hok. rewrite Hok in Hfate2.
    destruct Hfate2 as (l' & r' & Heq & Hc). injection Heq as _ <-. exact Hc. }
  assert (Hone : token_set w = true ->
                 forall l r, net w (requests w) = Reply l r ->
                             200 <= status r < 300 ->
                             w' = issued (elapse l w) /\ attempts tr = 1%nat).
  { intros Htok l r Hnet Hok. apply validateStatus_2xx in Hok.
    rewrite (makeVercelApiCall_resolved _ _ _ _ _ _ Htok Hnet Hok) in Hrun.
    injection Hrun as _ <- <-. split; reflexivity. }
  unfold Api.getDeploymentStatus, bind, try_catch, ret, throw.
  rewrite Hrun.
  destruct c as [d | e |]; [| |congruence].
  - destruct (Hret d eq_refl) as (l & r & Hfate & Hok & ->).
    assert (Hsame : forall l0 r0, final_fate w' = Reply l0 r0 -> r0 = r).
    { intros l0 r0 H0. rewrite Hfate in H0. injection H0 as _ <-. reflexivity. }
    destruct (read (data r) "state") as [st | | message] eqn:Hread.
    + eexists _, _, _. split; [reflexivity|].
      split; [discriminate|]. count_attempts_with attempts_app.
      split; [lia|].
      split.
      { intros _ l0 r0 H0 _. rewrite (Hsame l0 r0 H0), Hread. reflexivity. }
      split.
      { intros Htok l0 r0 H0 Hok0. apply (Hone Htok l0 r0 H0 Hok0). }
      split; [|intros e He; discriminate].
      intros st' Hst. injection Hst as <-.
      destruct (Js.string_truthy st) eqn:Ht.
      * split; [apply string_truthy_spec; exact Ht|].
        exists l, r. split; [exact Hfate|]. split; [exact Hok|].
        left. exact Hread.
      * split; [discriminate|].
        exists l, r. split; [exact Hfate|]. split; [exact Hok|].
        right. split; [reflexivity|]. right. rewrite Hread.
        destruct st; [reflexivity | discriminate].
    + eexists _, _, _. split; [reflexivity|].
      split; [discriminate|]. count_attempts_with attempts_app.
      split; [lia|].
      split.
      { intros _ l0 r0 H0 _. rewrite (Hsame l0 r0 H0), Hread. reflexivity. }
      split.
      { intros Htok l0 r0 H0 Hok0. apply (Hone Htok l0 r0 H0 Hok0). }
      split; [|intros e He; discriminate].
      intros st' Hst. injection Hst as <-.
      split; [discriminate|].
      exists l, r. split; [exact Hfate|]. split; [exact Hok|].
      right. split; [reflexivity|]. left. exact Hread.
    + eexists _, _, _. split; [reflexivity|].
      split; [discriminate|]. count_attempts_with attempts_app.
      split; [lia|].
      split.
      { intros _ l0 r0 H0 _. rewrite (Hsame l0 r0 H0), Hread. reflexivity. }
      split.
      { intros Htok l0 r0 H0 Hok0. apply (Hone Htok l0 r0 H0 Hok0). }
      split; [intros st' Hst; discriminate|].
      intros e He. injection He as <-. eexists. reflexivity.
  - destruct (Hthr e eq_refl) as (msg & ->).
    eexists _, _, _. split; [reflexivity|].
    split; [discriminate|]. count_attempts_with attempts_app.
    split; [lia|].
    split.
    { intros Htok l0 r0 H0 Hok0. specialize (Hset Htok l0 r0 H0 Hok0).
      discriminate. }
    split.
    { intros Htok l0 r0 H0 Hok0. apply (Hone Htok l0 r0 H0 Hok0). }
    split; [intros st' Hst; discriminate|].
    intros e He. injection He as <-. eexists. reflexivity.
Qed.

(* ===================================================================== *)
(** ** Validation of an environment *)
(* ===================================================================== *)

Lemma set_and_below_false n bound :
  Validation.set_and_below n bound = false <->
  forall z, n = Some (Js.Num z) -> z = 0 \/ bound <= z.
Proof.
  unfold Validation.set_and_below.
  destruct n as [[z|]|].
  - rewrite andb_false_iff, negb_false_iff, Z.eqb_eq, Z.ltb_ge. split.
    + intros H z' Hz. injection Hz as <-. exact H.
    + intros H. apply H. reflexivity.
  - split; [intros _ z H; discriminate | reflexivity].
  - split; [intros _ z H; discriminate | reflexivity].
Qed.

Lemma app_nil_iff {A} (l1 l2 : list A) :
  (l1 ++ l2)%list = [] <-> l1 = [] /\ l2 = [].
Proof.
  split.
  - apply app_eq_nil.
  - intros [-> ->]. reflexivity.
Qed.

Lemma missingVars_nil vars :
  Validation.missingVars vars = [] <->
  Forall (fun kv => snd kv <> "") vars.
Proof.
  unfold Validation.missingVars.
  induction vars as [|[k v] vars IH]; cbn.
  - split; [constructor | reflexivity].
  - destruct (Js.string_truthy v) eqn:Hv; cbn.
    + rewrite IH. split.
      * intros H. constructor; [apply string_truthy_spec; exact Hv | exact H].
      * intros H. inversion H; assumption.
    + split; [discriminate|].
      intros H. inversion H as [|x l Hne Hrest]; subst. cbn in Hne.
      apply string_truthy_spec in Hne. congruence.
Qed.

(** What [validateEnvironment] asks of a configuration. *)
Lemma errors_of_nil isValidUrl config token :
  Validation.errors_of isValidUrl config token = [] <->
  (exists p, vercelProject config = Some p /\ p <> "")
  /\ (exists u, apiBaseUrl config = Some u /\ u <> "" /\ isValidUrl u = true)
  /\ (exists h e,
        healthCheck config = Some h
        /\ hs_expectedStatus h = Some e
        /\ (forall z, hs_timeoutMs h = Some (Js.Num z) -> z = 0 \/ 100 <= z)
        /\ (forall z, hs_checkIntervalMs h = Some (Js.Num z) -> z = 0 \/ 1000 <= z))
  /\ (forall vars, environmentVariables config = Some vars ->
        Forall (fun kv => snd kv <> "") vars)
  /\ (exists t, token = Some t /\ t <> "").
Proof.
  unfold Validation.errors_of. rewrite !app_nil_iff.
  assert (Hp : Validation.project_errors config = [] <->
               exists p, vercelProject config = Some p /\ p <> "").
  { unfold Validation.project_errors, Validation.option_truthy.
    destruct (vercelProject config) as [p|]; cbn.
    - destruct (Js.string_truthy p) eqn:Ht; cbn.
      + split; [|reflexivity]. intros _. exists p.
        split; [reflexivity | apply string_truthy_spec; exact Ht].
      + split; [discriminate|]. intros (p' & Hp' & Hne). injection Hp' as <-.
        apply string_truthy_spec in Hne. congruence.
    - split; [discriminate | intros (p' & Hp' & _); discriminate]. }
  assert (Hu : Validation.url_errors isValidUrl config = [] <->
               exists u, apiBaseUrl config = Some u /\ u <> "" /\ isValidUrl u = true).
  { unfold Validation.url_errors.
    destruct (apiBaseUrl config) as [u|].
    - destruct (Js.string_truthy u) eqn:Ht; cbn.
      + destruct (isValidUrl u) eqn:Hv; cbn.
        * split; [|reflexivity]. intros _. exists u.
          split; [reflexivity|]. split; [apply string_truthy_spec; exact Ht | exact Hv].
        * split; [discriminate|]. intros (u' & Hu' & _ & Hv'). injection Hu' as <-.
          congruence.
      + split; [discriminate|]. intros (u' & Hu' & Hne & _). injection Hu' as <-.
        apply string_truthy_spec in Hne. congruence.
    - split; [discriminate | intros (u' & Hu' & _); discriminate]. }
  assert (Hh : Validation.health_errors config = [] <->
               exists h e,
                 healthCheck config = Some h
                 /\ hs_expectedStatus h = Some e
                 /\ (forall z, hs_timeoutMs h = Some (Js.Num z) -> z = 0 \/ 100 <= z)
                 /\ (forall z, hs_checkIntervalMs h = Some (Js.Num z) ->
                       z = 0 \/ 1000 <= z)).
  { unfold Validation.health_errors.
    destruct (healthCheck config) as [h|].
    - rewrite !app_nil_iff. split.
      + intros (H1 & H2 & H3).
        destruct (hs_expectedStatus h) as [e|] eqn:He; [|discriminate].
        destruct (Validation.set_and_below (hs_timeoutMs h) 100) eqn:Ht;
          [discriminate|].
        destruct (Validation.set_and_below (hs_checkIntervalMs h) 1000) eqn:Hi;
          [discriminate|].
        exists h, e. split; [reflexivity|]. split; [exact He|].
        split; apply set_and_below_false; assumption.
      + intros (h' & e' & Hh' & He' & H2 & H3). injection Hh' as <-.
        apply set_and_below_false in H2. apply set_and_below_false in H3.
        rewrite He', H2, H3. repeat split; reflexivity.
    - split; [discriminate | intros (h' & e' & Hh' & _); discriminate]. }
  assert (Hv : Validation.variable_errors config = [] <->
               forall vars, environmentVariables config = Some vars ->
                            Forall (fun kv => snd kv <> "") vars).
  { unfold Validation.variable_errors.
    destruct (environmentVariables config) as [vars|].
    - destruct (Validation.missingVars vars) as [|m ms] eqn:Hm; split.
      + intros _ vars' Hv'. injection Hv' as <-. apply missingVars_nil.
        exact Hm.
      + reflexivity.
      + discriminate.
      + intros H. specialize (H vars eq_refl). apply missingVars_nil in H.
        congruence.
    - split; [intros _ vars' Hv'; discriminate | reflexivity]. }
  assert (Ht : Validation.token_errors token = [] <->
               exists t, token = Some t /\ t <> "").
  { unfold Validation.token_errors, Validation.option_truthy.
    destruct token as [t|]; cbn.
    - destruct (Js.string_truthy t) eqn:Htt; cbn.
      + split; [|reflexivity]. intros _. exists t.
        split; [reflexivity | apply string_truthy_spec; exact Htt].
      + split; [discriminate|]. intros (t' & Ht' & Hne). injection Ht' as <-.
        apply string_truthy_spec in Hne. congruence.
    - split; [discriminate | intros (t' & Ht' & _); discriminate]. }
  rewrite Hp, Hu, Hh, Hv, Ht. reflexivity.
Qed.

Lemma validateEnvironment_accepts_aux isValidUrl config w w' tr :
  Validation.validateEnvironment isValidUrl config w = (Returned tt, w', tr) ->
  (exists p, vercelProject config = Some p /\ p <> "")
  /\ (exists u, apiBaseUrl config = Some u /\ u <> "" /\ isValidUrl u = true)
  /\ (exists h e,
        healthCheck config = Some h
        /\ hs_expectedStatus h = Some e
        /\ (forall z, hs_timeoutMs h = Some (Js.Num z) -> z = 0 \/ 100 <= z)
        /\ (forall z, hs_checkIntervalMs h = Some (Js.Num z) -> z = 0 \/ 1000 <= z))
  /\ (forall vars, environmentVariables config = Some vars ->
        Forall (fun kv => snd kv <> "") vars)
  /\ (exists t, VERCEL_TOKEN w = Some t /\ t <> "").
Proof.
  unfold Validation.validateEnvironment, bind, getenv_VERCEL_TOKEN, console_log,
    emit, throw.
  pose proof (errors_of_nil isValidUrl config (VERCEL_TOKEN w)) as Hnil.
  destruct (Validation.errors_of isValidUrl config (VERCEL_TOKEN w))
    as [|err errs]; [|discriminate].
  intros _. apply Hnil. reflexivity.
Qed.

(** X14: [validateEnvironment] issues no request and leaves the world as it
    is.  It returns exactly when the project name is not empty, the base URL
    is not empty and valid, the health section is there with an expected
    status, a timeout that is unset, 0, [NaN] or at least 100 and an interval
    that is unset, 0, [NaN] or at least 1000, no variable has an empty value,
    and [VERCEL_TOKEN] is set.  Otherwise it throws one [Error] that lists
    every failed check: a missing token is reported whatever else is wrong. *)
Theorem validateEnvironment_accepts isValidUrl config w :
  exists c tr,
    Validation.validateEnvironment isValidUrl config w = (c, w, tr)
    /\ attempts tr = 0%nat
    /\ (c = Returned tt <->
          (exists p, vercelProject config = Some p /\ p <> "")
          /\ (exists u, apiBaseUrl config = Some u /\ u <> "" /\ isValidUrl u = true)
          /\ (exists h e,
                healthCheck config = Some h
                /\ hs_expectedStatus h = Some e
                /\ (forall z, hs_timeoutMs h = Some (Js.Num z) -> z = 0 \/ 100 <= z)
                /\ (forall z, hs_checkIntervalMs h = Some (Js.Num z) ->
                      z = 0 \/ 1000 <= z))
          /\ (forall vars, environmentVariables config = Some vars ->
                Forall (fun kv => snd kv <> "") vars)
          /\ (exists t, VERCEL_TOKEN w = Some t /\ t <> ""))
    /\ (c <> Returned tt ->
          c = Threw (Js.new_Error
                       ("Environment validation failed:" ++ Validation.nl ++ "- "
                          ++ Validation.join (Validation.nl ++ "- ")
                               (Validation.errors_of isValidUrl config
                                  (VERCEL_TOKEN w))))
          /\ (token_set w = false ->
                In "VERCEL_TOKEN environment variable is not set"
                   (Validation.errors_of isValidUrl config (VERCEL_TOKEN w)))).
Proof.
  unfold Validation.validateEnvironment, bind, getenv_VERCEL_TOKEN, console_log,
    emit, throw.
  pose proof (errors_of_nil isValidUrl config (VERCEL_TOKEN w)) as Hnil.
  destruct (Validation.errors_of isValidUrl config (VERCEL_TOKEN w))
    as [|err errs] eqn:Herrs.
  - eexists _, _. split; [reflexivity|]. split; [reflexivity|].
    split.
    + split; [intros _; apply Hnil; reflexivity | reflexivity].
    + intros H. congruence.
  - eexists _, _. split; [reflexivity|]. split; [reflexivity|].
    split.
    + split; [discriminate|]. intros H. apply Hnil in H. discriminate.
    + intros _. split; [reflexivity|].
      intros Htok. rewrite <- Herrs. unfold Validation.errors_of.
      rewrite !in_app_iff. do 4 right.
      unfold Validation.token_errors.
      unfold token_set in Htok. unfold Validation.option_truthy.
      rewrite Htok. left. reflexivity.
Qed.

Lemma probe_requests_uniform url config :
  forall m retryCount w c w' tr,
    Z.to_nat (Health.MAX_RETRIES - retryCount) = m ->
    Health.checkDeploymentHealth url config retryCount w = (c, w', tr) ->
    requests_are (probe_request url config) tr.
Proof.
  unfold requests_are.
  induction m as [|m IH]; intros retryCount w c w' tr Hm Hrun;
    rewrite checkDeploymentHealth_eq in Hrun;
    destruct (net w (requests w)) as [l r | l e].
  - injection Hrun as <- <- <-. repeat constructor.
  - assert (Hlt : (retryCount <? Health.MAX_RETRIES) = false).
    { apply Z.ltb_ge. unfold Health.MAX_RETRIES in *. lia. }
    rewrite Hlt, andb_false_r in Hrun.
    injection Hrun as <- <- <-. repeat constructor.
  - injection Hrun as <- <- <-. repeat constructor.
  - destruct (Js.is_object_with_message e && (retryCount <? Health.MAX_RETRIES)).
    + destruct (Health.checkDeploymentHealth url config (retryCount + 1) (retry_world l w))
        as [[c1 w1] t1] eqn:Hrec.
      injection Hrun as <- <- <-.
      unfold retry_prefix. cbn [app].
      repeat (constructor; [try reflexivity; exact I|]).
      eapply IH; [|exact Hrec]. unfold Health.MAX_RETRIES in *. lia.
    + injection Hrun as <- <- <-. repeat constructor.
Qed.

(** What [||] makes of an optional number that validation let through. *)
Lemma or_default_validated n d bound :
  bound <= d ->
  (forall z, n = Some (Js.Num z) -> z = 0 \/ bound <= z) ->
  exists v,
    Js.or_default n (Js.Num d) = Js.Num v
    /\ bound <= v
    /\ (forall z, n = Some (Js.Num z) -> z <> 0 -> v = z)
    /\ (n = None \/ n = Some (Js.Num 0) \/ n = Some Js.NaN -> v = d).
Proof.
  intros Hd Hn. unfold Js.or_default.
  destruct n as [[z|]|]; cbn [Js.number_truthy].
  - destruct (Z.eqb_spec z 0) as [->|Hz]; cbn [negb].
    + exists d. split; [reflexivity|]. split; [exact Hd|].
      split; [intros z' Hz' Hne; injection Hz' as <-; contradiction|].
      reflexivity.
    + exists z. split; [reflexivity|].
      split; [destruct (Hn z eq_refl); [contradiction | assumption]|].
      split; [intros z' Hz' _; injection Hz' as <-; reflexivity|].
      intros [H | [H | H]]; try discriminate. injection H as ->. contradiction.
  - exists d. split; [reflexivity|]. split; [exact Hd|].
    split; [intros z' Hz'; discriminate | reflexivity].
  - exists d. split; [reflexivity|]. split; [exact Hd|].
    split; [intros z' Hz'; discriminate | reflexivity].
Qed.

(** X15: for a health section that [validateEnvironment] accepts, the
    timeout handed to the HTTP client is the configured value when that is
    not 0, and then at least 100, and the default 5000 when it is unset, 0 or
    [NaN]; every request of every run of [checkDeploymentHealth] carries that
    timeout and the runtime never refuses it, so the probe returns a result.
    The interval that [setupHealthMonitoring] announces is the configured
    value when that is not 0, and then at least 1000, and the default 30000
    when it is unset, 0 or [NaN]. *)
Theorem validated_health_bounds isValidUrl config w w' tr h e :
  Validation.validateEnvironment isValidUrl config w = (Returned tt, w', tr) ->
  healthCheck config = Some h ->
  hs_expectedStatus h = Some e ->
  exists t i,
    Js.or_default (hs_timeoutMs h) (Js.Num 5000) = Js.Num t
    /\ Js.or_default (hs_checkIntervalMs h) (Js.Num 30000) = Js.Num i
    /\ 100 <= t
    /\ 1000 <= i
    /\ (forall z, hs_timeoutMs h = Some (Js.Num z) -> z <> 0 -> t = z)
    /\ (hs_timeoutMs h = None \/ hs_timeoutMs h = Some (Js.Num 0)
        \/ hs_timeoutMs h = Some Js.NaN -> t = 5000)
    /\ (forall z, hs_checkIntervalMs h = Some (Js.Num z) -> z <> 0 -> i = z)
    /\ (hs_checkIntervalMs h = None \/ hs_checkIntervalMs h = Some (Js.Num 0)
        \/ hs_checkIntervalMs h = Some Js.NaN -> i = 30000)
    /\ (forall url pw,
          exists res pw' ptr,
            Runtime.checkDeploymentHealth url
              (Validation.as_DeploymentHealth h e) 0 pw
              = (Runtime.Settled (Returned res), pw', ptr)
            /\ requests_are (EvRequest "GET" url (Some (Js.Num t))) ptr
            /\ (1 <= attempts ptr)%nat)
    /\ (forall url now,
          In (Monitor.console_log (Monitor.Interval (Js.Num i)))
             (Monitor.console
                (Monitor.setupHealthMonitoring url
                   (Validation.as_DeploymentHealth h e) now))).
Proof.
  intros Hrun Hh He.
  destruct (validateEnvironment_accepts_aux isValidUrl config w w' tr Hrun)
    as (_ & _ & (h' & e' & Hh' & _ & Ht & Hi) & _).
  rewrite Hh in Hh'. injection Hh' as <-.
  destruct (or_default_validated (hs_timeoutMs h) 5000 100 ltac:(lia) Ht)
    as (t & Ht' & Htb & Htz & Htd).
  destruct (or_default_validated (hs_checkIntervalMs h) 30000 1000 ltac:(lia) Hi)
    as (i & Hi' & Hib & Hiz & Hid).
  exists t, i.
  split; [exact Ht'|]. split; [exact Hi'|].
  split; [exact Htb|]. split; [exact Hib|].
  split; [exact Htz|]. split; [exact Htd|].
  split; [exact Hiz|]. split; [exact Hid|].
  split.
  - intros url pw.
    assert (Hok : Runtime.timer_refused
                    (Runtime.probe_timer (Validation.as_DeploymentHealth h e))
                  = false).
    { unfold Runtime.probe_timer, Validation.as_DeploymentHealth.
      cbn [timeoutMs]. rewrite Ht'. cbn. apply Z.ltb_ge. lia. }
    destruct (probe_run url (Validation.as_DeploymentHealth h e) _ 0 pw eq_refl)
      as (res & pw' & ptr & Hp & _ & Hreq & _).
    exists res, pw', ptr.
    split.
    + unfold Runtime.checkDeploymentHealth.
      rewrite (runtime_accepted url _ Hok). unfold Runtime.lift.
      change (Health.checkDeploymentHealth_fuel (Health.depth 0) url
                (Validation.as_DeploymentHealth h e) 0 pw)
        with (Health.checkDeploymentHealth url
                (Validation.as_DeploymentHealth h e) 0 pw).
      rewrite Hp. reflexivity.
    + split.
      * pose proof (probe_requests_uniform url _ _ _ _ _ _ _ eq_refl Hp) as Hu.
        unfold probe_request, Validation.as_DeploymentHealth in Hu.
        cbn [timeoutMs] in Hu. rewrite Ht' in Hu. exact Hu.
      * destruct (probe_timeline_aux url _ _ _ _ _ _ _ eq_refl Hp)
          as (n & _ & _ & Hat & _).
        rewrite Hat. lia.
  - intros url now.
    unfold Monitor.setupHealthMonitoring, Validation.as_DeploymentHealth.
    cbn [Monitor.console checkIntervalMs]. rewrite Hi'.
    right. left. reflexivity.
Qed.

Lemma validated_health_bounds_witness :
  exists t i,
    Js.or_default (hs_timeoutMs SampleEnv.section) (Js.Num 5000) = Js.Num t
    /\ Js.or_default (hs_checkIntervalMs SampleEnv.section) (Js.Num 30000) = Js.Num i
    /\ 100 <= t
    /\ 1000 <= i
    /\ (forall z, hs_timeoutMs SampleEnv.section = Some (Js.Num z) -> z <> 0 -> t = z)
    /\ (hs_timeoutMs SampleEnv.section = None
        \/ hs_timeoutMs SampleEnv.section = Some (Js.Num 0)
        \/ hs_timeoutMs SampleEnv.section = Some Js.NaN -> t = 5000)
    /\ (forall z, hs_checkIntervalMs SampleEnv.section = Some (Js.Num z) ->
          z <> 0 -> i = z)
    /\ (hs_checkIntervalMs SampleEnv.section = None
        \/ hs_checkIntervalMs SampleEnv.section = Some (Js.Num 0)
        \/ hs_checkIntervalMs SampleEnv.section = Some Js.NaN -> i = 30000)
    /\ (forall url pw,
          exists res pw' ptr,
            Runtime.checkDeploymentHealth url
              (Validation.as_DeploymentHealth SampleEnv.section (Js.Num 200)) 0 pw
              = (Runtime.Settled (Returned res), pw', ptr)
            /\ requests_are (EvRequest "GET" url (Some (Js.Num t))) ptr
            /\ (1 <= attempts ptr)%nat)
    /\ (forall url now,
          In (Monitor.console_log (Monitor.Interval (Js.Num i)))
             (Monitor.console
                (Monitor.setupHealthMonitoring url
                   (Validation.as_DeploymentHealth SampleEnv.section (Js.Num 200))
                   now))).
Proof.
  apply (validated_health_bounds SampleEnv.any_url SampleEnv.production
           Samples.up Samples.up
           [EvConsoleLog "✅ Environment configuration validated successfully"]
           SampleEnv.section (Js.Num 200)).
  - reflexivity.
  - reflexivity.
  - reflexivity.
Defined.

(* ===================================================================== *)
(** ** The command [check <url>] *)
(* ===================================================================== *)

(** X16: the command [check <url>], when the parsed timeout is not negative,
    ends with exit code 0 exactly when the last request of the probe got a
    response whose status is the expected one, printing the "passed" line on
    the standard output, and in every other case with exit code 1 and the
    "failed" line on the error stream; its own [catch] block is never
    entered.  When the parsed timeout is negative the runtime refuses the
    timer of the first request and the process is killed by the [RangeError],
    after the first console line and with neither of the two lines. *)
Theorem check_command_exit parseInt url opt_timeout opt_status w :
  (Runtime.timer_refused
     (Runtime.probe_timer (Cli.check_config parseInt opt_timeout opt_status)) = true
   <-> exists z, parseInt opt_timeout = Js.Num z /\ z < 0)
  /\ (Runtime.timer_refused
        (Runtime.probe_timer (Cli.check_config parseInt opt_timeout opt_status)) = true ->
      Cli.check_command parseInt url opt_timeout opt_status w
      = (Runtime.Killed Runtime.range_error, w,
         [EvConsoleLog ("🔍 Checking health of " ++ url ++ "...")]))
  /\ (Runtime.timer_refused
        (Runtime.probe_timer (Cli.check_config parseInt opt_timeout opt_status)) = false ->
      exists res w' tr ex,
        Health.checkDeploymentHealth url
          (Cli.check_config parseInt opt_timeout opt_status) 0 w
          = (Returned res, w', tr)
        /\ Cli.check_command parseInt url opt_timeout opt_status w
           = (Runtime.Settled (Returned ex), w',
              EvConsoleLog ("🔍 Checking health of " ++ url ++ "...") :: tr)
        /\ (Cli.exit_code ex = 0 <->
              exists l r, final_fate w' = Reply l r
                          /\ parseInt opt_status = Js.Num (status r))
        /\ (Cli.exit_code ex <> 0 -> Cli.exit_code ex = 1)
        /\ (Cli.exit_code ex = 0 ->
              Cli.exit_stream ex = Cli.stdout
              /\ Cli.exit_line ex = Cli.passed_line res)
        /\ (Cli.exit_code ex = 1 ->
              Cli.exit_stream ex = Cli.stderr
              /\ Cli.exit_line ex = Cli.failed_line res)).
Proof.
  split.
  { unfold Runtime.probe_timer, Cli.check_config, Runtime.timer_refused,
      Js.or_default. cbn [timeoutMs].
    destruct (parseInt opt_timeout) as [z|]; cbn [Js.number_truthy].
    - destruct (Z.eqb_spec z 0) as [->|Hz]; cbn [negb].
      + split; [discriminate|]. intros (z' & Hz' & Hneg).
        injection Hz' as <-. lia.
      + rewrite Z.ltb_lt. split.
        * intros H. exists z. split; [reflexivity | exact H].
        * intros (z' & Hz' & Hneg). injection Hz' as <-. exact Hneg.
    - split; [discriminate | intros (z' & Hz' & _); discriminate]. }
  split.
  { intros Hbad.
    unfold Cli.check_command, Runtime.try_catch, Runtime.bind.
    unfold Runtime.lift at 1. unfold console_log, emit.
    unfold Runtime.checkDeploymentHealth, Health.depth.
    rewrite (runtime_refused _ _ _ _ _ Hbad). reflexivity. }
  intros Hok.
  destruct (probe_run url (Cli.check_config parseInt opt_timeout opt_status)
              _ 0 w eq_refl)
    as (res & w' & tr & Hrun & _ & _ & Hres).
  assert (Hrt : Runtime.checkDeploymentHealth url
                  (Cli.check_config parseInt opt_timeout opt_status) 0 w
                = (Runtime.Settled (Returned res), w', tr)).
  { unfold Runtime.checkDeploymentHealth.
    rewrite (runtime_accepted url _ Hok). unfold Runtime.lift.
    change (Health.checkDeploymentHealth_fuel (Health.depth 0) url
              (Cli.check_config parseInt opt_timeout opt_status) 0 w)
      with (Health.checkDeploymentHealth url
              (Cli.check_config parseInt opt_timeout opt_status) 0 w).
    rewrite Hrun. reflexivity. }
  assert (Hiff : healthy res = true <->
                 exists l r, final_fate w' = Reply l r
                             /\ parseInt opt_status = Js.Num (status r)).
  { destruct (final_fate w') as [l r | l e]; subst res;
      unfold from_response, synthetic; cbn [healthy].
    - rewrite strict_eq_Num. cbn [Cli.check_config expectedStatus]. split.
      + intros H. exists l, r. split; [reflexivity | exact H].
      + intros (l' & r' & Heq & H). injection Heq as _ <-. exact H.
    - split; [discriminate | intros (l' & r' & H & _); discriminate]. }
  unfold Cli.check_command, Runtime.try_catch, Runtime.bind.
  unfold Runtime.lift at 1. unfold console_log, emit.
  rewrite Hrt.
  destruct (healthy res) eqn:Hh; unfold Runtime.lift, ret.
  - eexists res, w', tr, _. split; [exact Hrun|].
    split; [cbn [app]; rewrite app_nil_r; reflexivity|].
    cbn [Cli.exit_code Cli.exit_stream Cli.exit_line].
    split; [split; [intros _; apply Hiff; reflexivity | reflexivity]|].
    split; [intros H; contradiction|].
    split; [intros _; split; reflexivity | discriminate].
  - eexists res, w', tr, _. split; [exact Hrun|].
    split; [cbn [app]; rewrite app_nil_r; reflexivity|].
    cbn [Cli.exit_code Cli.exit_stream Cli.exit_line].
    split; [split; [discriminate | intros H; apply Hiff in H; discriminate]|].
    split; [reflexivity|].
    split; [discriminate | intros _; split; reflexivity].
Qed.

(* ===================================================================== *)
(** ** The time that a probe takes *)
(* ===================================================================== *)

Lemma probe_elapsed_aux url config :
  forall m retryCount w c w' tr,
    Z.to_nat (Health.MAX_RETRIES - retryCount) = m ->
    Health.checkDeploymentHealth url config retryCount w = (c, w', tr) ->
    exists n,
      (n <= m)%nat
      /\ attempts tr = S n
      /\ clock w' = clock w + total_latency (net w) (requests w) (S n)
                    + Health.RETRY_DELAY_MS * Z.of_nat n.
Proof.
  induction m as [|m IH]; intros retryCount w c w' tr Hm Hrun;
    rewrite checkDeploymentHealth_eq in Hrun;
    destruct (net w (requests w)) as [l r | l e] eqn:Hnet.
  - injection Hrun as <- <- <-. exists O.
    cbn [total_latency attempts elapse issued clock]. rewrite Hnet.
    cbn [latency]. repeat split; lia.
  - assert (Hlt : (retryCount <? Health.MAX_RETRIES) = false).
    { apply Z.ltb_ge. unfold Health.MAX_RETRIES in *. lia. }
    rewrite Hlt, andb_false_r in Hrun.
    injection Hrun as <- <- <-. exists O.
    cbn [total_latency attempts elapse issued clock]. rewrite Hnet.
    cbn [latency]. repeat split; lia.
  - injection Hrun as <- <- <-. exists O.
    cbn [total_latency attempts elapse issued clock]. rewrite Hnet.
    cbn [latency]. repeat split; lia.
  - destruct (Js.is_object_with_message e && (retryCount <? Health.MAX_RETRIES)).
    + destruct (Health.checkDeploymentHealth url config (retryCount + 1) (retry_world l w))
        as [[c1 w1] t1] eqn:Hrec.
      injection Hrun as <- <- <-.
      destruct (IH (retryCount + 1) _ _ _ _ ltac:(unfold Health.MAX_RETRIES in *; lia) Hrec)
        as (n & Hn & Hat & Hclock).
      exists (S n).
      split; [lia|].
      split; [unfold retry_prefix; cbn [app attempts probe_request]; rewrite Hat;
              reflexivity|].
      rewrite Hclock.
      cbn [retry_world elapse issued clock net requests].
      change (total_latency (net w) (requests w) (S (S n)))
        with (latency (net w (requests w))
              + total_latency (net w) (S (requests w)) (S n)).
      rewrite Hnet. cbn [latency]. unfold Health.RETRY_DELAY_MS. lia.
    + injection Hrun as <- <- <-. exists O.
      cbn [total_latency attempts elapse issued clock]. rewrite Hnet.
      cbn [latency]. repeat split; lia.
Qed.

(** X17: the time that a probe takes is the time of its requests plus
    1000 ms for each retry; when no request of the script takes longer than
    [limit], a probe from [retryCount = 0] is over within
    [4 * limit + 3000] ms. *)
Theorem probe_elapsed url config w limit :
  (forall k, 0 <= latency (net w k) <= limit) ->
  exists c w' tr n,
    Health.checkDeploymentHealth url config 0 w = (c, w', tr)
    /\ attempts tr = S n
    /\ clock w' = clock w + total_latency (net w) (requests w) (S n)
                  + 1000 * Z.of_nat n
    /\ clock w <= clock w' <= clock w + 4 * limit + 3000.
Proof.
  intros Hlim.
  destruct (Health.checkDeploymentHealth url config 0 w) as [[c w'] tr] eqn:Hrun.
  destruct (probe_elapsed_aux url config _ _ _ _ _ _ eq_refl Hrun)
    as (n & Hn & Hat & Hclock).
  exists c, w', tr, n. split; [reflexivity|]. split; [exact Hat|].
  split; [exact Hclock|].
  assert (Hsum : forall count from,
             0 <= total_latency (net w) from count <= Z.of_nat count * limit).
  { induction count as [|count IHc]; intros from.
    - cbn. lia.
    - cbn [total_latency]. specialize (IHc (S from)).
      specialize (Hlim from). rewrite Nat2Z.inj_succ. nia. }
  specialize (Hsum (S n) (requests w)).
  assert (Hn3 : (n <= 3)%nat) by exact Hn.
  assert (0 <= limit) by (specialize (Hlim O); lia).
  rewrite Hclock. unfold Health.RETRY_DELAY_MS.
  rewrite Nat2Z.inj_succ in Hsum. nia.
Qed.

Lemma probe_elapsed_witness :
  exists c w' tr n,
    Health.checkDeploymentHealth Samples.target Samples.cfg 0 Samples.down
      = (c, w', tr)
    /\ attempts tr = S n
    /\ clock w' = clock Samples.down
                  + total_latency (net Samples.down) (requests Samples.down) (S n)
                  + 1000 * Z.of_nat n
    /\ clock Samples.down <= clock w' <= clock Samples.down + 4 * 7 + 3000.
Proof.
  apply (probe_elapsed Samples.target Samples.cfg Samples.down 7).
  intros k. cbn. lia.
Defined.
